(** * ble-glucose: the protocol engine of [src/index.js]

    A shallow embedding of the Bluetooth LE glucose-meter client
    ([class bluetoothLE]): the [DataView] reads it performs, the SFLOAT
    decoder [getSFLOAT], the two record parsers
    [parseGlucoseMeasurement] and [parseMeasurementContext], the
    notification handlers that accumulate records, the RACP response
    handler [handleRACP] and the four operations that write an RACP command.
    After them come [buf2hex], the loop of [getDeviceInfo] and the blocks
    of [disconnect], each over what it asks of the platform.

    Conventions.
    - A [DataView] is the list of the bytes it spans; a read outside of it
      throws [RangeError], as the platform's [DataView] does.
    - A function that can throw returns a [result], chained with
      [x <- r ;; k]; a handler that updates the module-level instance
      [self] takes the [Session] and returns the new one, next to what it
      returned or threw.
    - JavaScript numbers that hold integers are [Z].  In [getSFLOAT] and
      [hasFlag], [>>] and [&] act on the 32-bit readings of their
      operands, as in the language; on a byte just read from the
      [DataView], [>> 4] is [Z.shiftr].  The value an SFLOAT decodes to
      is a binary64: the product [mantissa * (10 ** exponent)] is the
      IEEE 754 one, and the power [10 ** exponent], whose accuracy
      ECMAScript leaves to the engine, is a parameter of the development.
    - [sundial.buildTimestamp] and the logger [debug] belong to other
      packages.  The first is a parameter of the development, any total
      function from the date-time fields; the calls of the second, with
      the [sundial.formatDeviceTime] inside one of them, are left out:
      they change neither the session nor the control flow.
    - The scratch properties [this.parsed] and [this.racpObject] live on
      the characteristic a listener is called on, not on [self]; they are
      local values here. *)

From Stdlib Require Import ZArith List String Bool Lia QArith.
From Stdlib Require Import Init.Byte Strings.Byte.
From Stdlib Require Import Ascii Qpower Qabs SpecFloat.
Import ListNotations.

Local Open Scope string_scope.
Local Open Scope list_scope.
Local Open Scope Z_scope.

(** ** JavaScript values and exceptions *)

Module JS.

(** What the code can throw: [Error(message)] and the [RangeError] of an
    out-of-bounds [DataView] read (its message is the engine's). *)
Inductive exn : Type :=
| Error (message : string)
| RangeError.

Inductive result (A : Type) : Type :=
| Ok (a : A)
| Throw (e : exn).

Arguments Ok {A} a.
Arguments Throw {A} e.

Definition bind {A B : Type} (r : result A) (k : A -> result B) : result B :=
  match r with
  | Ok a => k a
  | Throw e => Throw e
  end.

Definition isOk {A : Type} (r : result A) : bool :=
  match r with Ok _ => true | Throw _ => false end.

(** A Number as [getSFLOAT] returns it: an IEEE 754 binary64, in the
    library's specification of floating-point numbers with precision 53
    and maximal exponent 1024. *)
Definition number : Type := spec_float.

Definition NaN : number := S754_nan.
Definition POSITIVE_INFINITY : number := S754_infinity false.
Definition NEGATIVE_INFINITY : number := S754_infinity true.

(** The Number that holds the integer [z]; exact below 2^53. *)
Definition ofZ (z : Z) : number := binary_normalize 53 1024 z 0 false.

(** [x * y] on Numbers: the binary64 product, rounded to nearest with
    ties to even. *)
Definition multiply (x y : number) : number := SFmul 53 1024 x y.

(** ToInt32 of an integer. *)
Definition toInt32 (z : Z) : Z := (z + 2 ^ 31) mod 2 ^ 32 - 2 ^ 31.

(** [a >> n] for [0 <= n < 32], and [a & b]: both on ToInt32 of their
    operands. *)
Definition shiftRight (a n : Z) : Z := Z.shiftr (toInt32 a) n.

Definition bitAnd (a b : Z) : Z := Z.land (toInt32 a) (toInt32 b).

(** [a && b] on numbers that hold integers: [a] when [a] is falsy
    (zero), else [b]. *)
Definition logical_and (a b : Z) : Z :=
  if a =? 0 then a else b.

(** Truthiness of an integer-valued number. *)
Definition truthy (a : Z) : bool := negb (a =? 0).

(** [a[i]] on an array; [None] is [undefined]. *)
Definition index {A : Type} (a : list A) (i : Z) : option A :=
  if i <? 0 then None else nth_error a (Z.to_nat i).

End JS.

Import JS.

Declare Scope js_scope.
Delimit Scope js_scope with js.
Notation "x <- r ;; k" := (JS.bind r (fun x => k))
  (at level 61, r at next level, right associativity) : js_scope.
Local Open Scope js_scope.

(** ** DataView *)

Module DataView.

Definition t : Type := list byte.

Definition byteLength (dv : t) : Z := Z.of_nat (List.length dv).

Definition unsigned (b : byte) : Z := Z.of_N (Byte.to_N b).

(** The byte at index [i], when [i] is inside the view. *)
Definition byteAt (dv : t) (i : Z) : option Z :=
  option_map unsigned (JS.index dv i).

Definition getUint8 (dv : t) (byteOffset : Z) : result Z :=
  match byteAt dv byteOffset with
  | Some b => Ok b
  | None => Throw RangeError
  end.

Definition getUint16 (dv : t) (byteOffset : Z) (littleEndian : bool) : result Z :=
  match byteAt dv byteOffset, byteAt dv (byteOffset + 1) with
  | Some b0, Some b1 =>
      Ok (if littleEndian then b0 + 256 * b1 else 256 * b0 + b1)
  | _, _ => Throw RangeError
  end.

(** Two's complement reading of a 16-bit pattern. *)
Definition toInt16 (u : Z) : Z :=
  if u >=? 0x8000 then u - 0x10000 else u.

Definition getInt16 (dv : t) (byteOffset : Z) (littleEndian : bool) : result Z :=
  u <- getUint16 dv byteOffset littleEndian ;; Ok (toInt16 u).

End DataView.

(** ** Flag tables *)

Module FLAGS.
Definition TIME_OFFSET_PRESENT : Z := 0x01.
Definition GLUCOSE_PRESENT : Z := 0x02.
Definition IS_MMOL : Z := 0x04.
Definition STATUS_PRESENT : Z := 0x08.
Definition CONTEXT_INFO : Z := 0x10.
End FLAGS.

Module CONTEXT_FLAGS.
Definition CARBS : Z := 0x01.
Definition MEAL : Z := 0x02.
Definition TESTER_HEALTH : Z := 0x04.
Definition EXERCISE : Z := 0x08.
Definition MEDICATION : Z := 0x10.
Definition UNITS : Z := 0x20.
Definition HBA1C : Z := 0x40.
Definition EXTENDED : Z := 0x80.
End CONTEXT_FLAGS.

(** [hasFlag(flag, v)]: [flag.value & v] is truthy. *)
Definition hasFlag (flag v : Z) : bool :=
  if JS.truthy (JS.bitAnd flag v) then true else false.

(** ** The SFLOAT decoder *)

Section Decoder.

(** [10 ** e] for an integer [e], as the engine computes it. *)
Variable pow10 : Z -> number.

Definition getSFLOAT (value : Z) (units : string) : result number :=
  if value =? 0x07FF then Ok NaN
  else if value =? 0x0800 then Ok NaN
  else if value =? 0x07FE then Ok POSITIVE_INFINITY
  else if value =? 0x0802 then Ok NEGATIVE_INFINITY
  else if value =? 0x0801 then Ok NaN
  else
    let exponent := JS.shiftRight value 12 in
    let mantissa := JS.bitAnd value 0x0FFF in
    let exponent :=
      if exponent >=? 0x0008 then - ((0x000F + 1) - exponent) else exponent in
    exponent <-
      (if (units =? "mg/dL")%string then Ok (exponent + 5)
       else if (units =? "mmol/L")%string then Ok (exponent + 3)
       else Throw (Error "Illegal units for glucose value")) ;;
    let mantissa :=
      if mantissa >=? 0x0800 then - ((0x0FFF + 1) - mantissa) else mantissa in
    Ok (JS.multiply (JS.ofZ mantissa) (pow10 exponent)).

End Decoder.

(** *** The decoder as the specification words it *)

Inductive Unit : Type := MgDl | MmolL.

Definition unit_name (u : Unit) : string :=
  match u with
  | MgDl => "mg/dL"
  | MmolL => "mmol/L"
  end.

Definition unit_bias (u : Unit) : Z :=
  match u with
  | MgDl => 5
  | MmolL => 3
  end.

(** The five reserved patterns and their sentinels. *)
Definition sfloat_reserved (value : Z) : option number :=
  if value =? 0x07FF then Some NaN
  else if value =? 0x0800 then Some NaN
  else if value =? 0x0801 then Some NaN
  else if value =? 0x07FE then Some POSITIVE_INFINITY
  else if value =? 0x0802 then Some NEGATIVE_INFINITY
  else None.

(** A [w]-bit pattern read as two's complement. *)
Definition twos_complement (w : Z) (x : Z) : Z :=
  if x >=? 2 ^ (w - 1) then x - 2 ^ w else x.

(** The result: a sentinel, or mantissa times ten to the exponent, in
    native precision: the binary64 product of the mantissa and the
    engine's power of ten. *)
Definition sfloat_reference (pow10 : Z -> number) (value : Z) (u : Unit)
  : number :=
  match sfloat_reserved value with
  | Some sentinel => sentinel
  | None =>
      let exponent := twos_complement 4 (value / 2 ^ 12) + unit_bias u in
      let mantissa := twos_complement 12 (value mod 2 ^ 12) in
      SFmul 53 1024 (binary_normalize 53 1024 mantissa 0 false)
        (pow10 exponent)
  end.

(** *** Numbers and the reals *)

(** The real number a Number stands for, in lowest terms; none for NaN
    and the infinities. *)
Definition exactValue (x : number) : option Q :=
  match x with
  | S754_zero _ => Some 0%Q
  | S754_finite s m e =>
      Some (Qred (inject_Z (if s then Z.neg m else Z.pos m) * 2 ^ e)%Q)
  | _ => None
  end.

(** The binary64 nearest to [10 ^ e], for [-22 <= e <= 22]: the power
    itself when [e] is not negative, and else the quotient, rounded once,
    of one by a power that is exact. *)
Definition nearestPow10 (e : Z) : number :=
  if e <? 0 then SFdiv 53 1024 (JS.ofZ 1) (JS.ofZ (10 ^ (- e)))
  else JS.ofZ (10 ^ e).

(** What an accurate engine may return for [10 ** e]: the power itself
    when it is a binary64, and else the binary64 nearest to it or one of
    the two next to that one. *)
Definition enginePowers (e : Z) : list number :=
  let c := nearestPow10 e in
  if e <? 0 then [SFpred 53 1024 c; c; SFsucc 53 1024 c] else [c].

(** The engine is accurate on the exponents [getSFLOAT] reaches from a
    16-bit value: from -8 + 3 to 7 + 5. *)
Definition accuratePow10 (pow10 : Z -> number) : Prop :=
  forall e, -5 <= e <= 12 -> In (pow10 e) (enginePowers e).

(** An engine to run the decoder on samples: the one that rounds every
    power of ten correctly. *)
Definition samplePow10 : Z -> number := nearestPow10.

(** What the product of a mantissa [m] and a power [p] that an accurate
    engine may return for [10 ** e] has to satisfy: it is finite, it is
    the integer [m * 10 ^ e] when [e] is not negative and within
    [2 ^ -50] of [m * 10 ^ e], relatively, in any case; it has the sign of
    [m]; it is within the bounds of the format. *)
Definition productChecked (e : Z) (p : number) (m : Z) : bool :=
  match exactValue (JS.multiply (JS.ofZ m) p) with
  | Some q =>
      let t := (inject_Z m * inject_Z 10 ^ e)%Q in
      (if 0 <=? e
       then (Qnum q =? m * 10 ^ e) && (Qden q =? 1)%positive
       else true)
      && Qle_bool (Qabs (q - t) * 2 ^ 50) (Qabs t)
      && Bool.eqb (Qeq_bool q 0) (m =? 0)
      && Bool.eqb (Qle_bool 0 q) (0 <=? m)
      && Qle_bool (- (2048 * 10 ^ 12)) q
      && Qle_bool q (2047 * 10 ^ 12)
  | None => false
  end.

(** Structural equality of Numbers. *)
Definition sameNumber (x y : number) : bool :=
  match x, y with
  | S754_zero s, S754_zero s' => Bool.eqb s s'
  | S754_infinity s, S754_infinity s' => Bool.eqb s s'
  | S754_nan, S754_nan => true
  | S754_finite s m e, S754_finite s' m' e' =>
      Bool.eqb s s' && (m =? m')%positive && (e =? e')
  | _, _ => false
  end.

(** A hundred times the product of [m] and [10 ** e] is the product of
    [m] and [10 ** (e + 2)]. *)
Definition hundredChecked (e m : Z) : bool :=
  sameNumber
    (JS.multiply (JS.ofZ 100) (JS.multiply (JS.ofZ m) (nearestPow10 e)))
    (JS.multiply (JS.ofZ m) (nearestPow10 (e + 2))).

(** The mantissas and the biased exponents of the 16-bit values. *)
Definition mantissas : list Z :=
  List.map (fun i => Z.of_nat i + -2048) (List.seq 0 4096).

Definition exponents : list Z :=
  List.map (fun i => Z.of_nat i + -5) (List.seq 0 18).

(** ** Records *)

Record DateTime : Type := {
  year : Z;
  month : Z;
  day : Z;
  hours : Z;
  minutes : Z;
  seconds : Z
}.

(** [dateTime.month = m]. *)
Definition set_month (dateTime : DateTime) (m : Z) : DateTime :=
  {| year := year dateTime; month := m; day := day dateTime;
     hours := hours dateTime; minutes := minutes dateTime;
     seconds := seconds dateTime |}.

(** The object [parseMeasurementContext] returns; a property that was
    never assigned is [None]. *)
Module ContextRecord.
Record t : Type := {
  flags : Z;
  seqNum : Z;
  extended : option Z;
  carbID : option Z;
  carbUnits : option Z;
  meal : option Z
}.
End ContextRecord.

(** ** The context record parser *)

(** The parser together with the value its cursor [offset] ends with. *)
Definition parseMeasurementContext_cursor (result : DataView.t)
  : JS.result (ContextRecord.t * Z) :=
  flags <- DataView.getUint8 result 0 ;;
  seqNum <- DataView.getUint16 result 1 true ;;
  let offset := 3 in
  ext <-
    (if hasFlag CONTEXT_FLAGS.EXTENDED flags then
       extended <- DataView.getUint8 result offset ;;
       Ok (Some extended, offset + 1)
     else Ok (None, offset)) ;;
  let '(extended, offset) := ext in
  carbs <-
    (if hasFlag CONTEXT_FLAGS.CARBS flags then
       carbID <- DataView.getUint8 result offset ;;
       carbUnits <- DataView.getUint16 result (offset + 1) true ;;
       Ok (Some carbID, Some carbUnits, offset + 2)
     else Ok (None, None, offset)) ;;
  let '(carbID, carbUnits, offset) := carbs in
  ml <-
    (if hasFlag CONTEXT_FLAGS.MEAL flags then
       meal <- DataView.getUint8 result offset ;;
       Ok (Some meal, offset + 1)
     else Ok (None, offset)) ;;
  let '(meal, offset) := ml in
  Ok ({| ContextRecord.flags := flags;
         ContextRecord.seqNum := seqNum;
         ContextRecord.extended := extended;
         ContextRecord.carbID := carbID;
         ContextRecord.carbUnits := carbUnits;
         ContextRecord.meal := meal |}, offset).

Definition parseMeasurementContext (result : DataView.t)
  : JS.result ContextRecord.t :=
  r <- parseMeasurementContext_cursor result ;; Ok (fst r).

(** *** The carbohydrate group as the specification words it *)

(** The bytes the carbohydrate group spans when it starts at [start]:
    one byte of id, then the two bytes of the amount. *)
Definition carb_group_bytes (start : Z) : list Z :=
  [start; start + 1; start + 2].

(** Where the extended-flags byte leaves the cursor. *)
Definition context_after_extended (flags : Z) : Z :=
  3 + (if hasFlag CONTEXT_FLAGS.EXTENDED flags then 1 else 0).

(** Where the meal code lies when every group before it is skipped in
    full. *)
Definition context_meal_position (flags : Z) : Z :=
  context_after_extended flags
  + (if hasFlag CONTEXT_FLAGS.CARBS flags then 3 else 0).

Section Engine.

(** The engine's [10 ** e], as for [getSFLOAT]. *)
Variable pow10 : Z -> number.

(** [sundial.buildTimestamp], from the package [sundial]. *)
Context {Timestamp : Type}.
Variable buildTimestamp : DateTime -> Timestamp.

Record Payload : Type := {
  internalTime : Timestamp;
  timeOffset : Z
}.

(** The object [parseGlucoseMeasurement] returns; a property that was
    never assigned is [None]. *)
Record MeasurementRecord : Type := {
  flags : Z;
  seqNum : Z;
  payload : option Payload;
  timestamp : Timestamp;
  units : option string;
  value : option number;
  type : option Z;
  location : option Z;
  status : option Z;
  hasContext : bool
}.

(** The properties assigned in the branch of [FLAGS.GLUCOSE_PRESENT]. *)
Record Glucose : Type := {
  g_units : option string;
  g_value : option number;
  g_type : option Z;
  g_location : option Z;
  g_status : option Z
}.

Definition no_glucose : Glucose :=
  {| g_units := None; g_value := None; g_type := None;
     g_location := None; g_status := None |}.

(** ** The measurement record parser *)

Definition parseGlucoseMeasurement (result : DataView.t)
  : JS.result MeasurementRecord :=
  flags <- DataView.getUint8 result 0 ;;
  seqNum <- DataView.getUint16 result 1 true ;;
  let offset := 0 in
  year <- DataView.getUint16 result 3 true ;;
  month <- DataView.getUint8 result 5 ;;
  day <- DataView.getUint8 result 6 ;;
  hours <- DataView.getUint8 result 7 ;;
  minutes <- DataView.getUint8 result 8 ;;
  seconds <- DataView.getUint8 result 9 ;;
  let dateTime :=
    {| year := year; month := month; day := day;
       hours := hours; minutes := minutes; seconds := seconds |} in
  let dateTime :=
    if month =? 13 then set_month dateTime 1 else dateTime in
  tofs <-
    (if hasFlag FLAGS.TIME_OFFSET_PRESENT flags then
       let internalTime := buildTimestamp dateTime in
       timeOffset <- DataView.getInt16 result 10 true ;;
       Ok (Some {| internalTime := internalTime; timeOffset := timeOffset |},
           offset + 2)
     else Ok (None, offset)) ;;
  let '(payload, offset) := tofs in
  let timestamp := buildTimestamp dateTime in
  glucose <-
    (if hasFlag FLAGS.GLUCOSE_PRESENT flags then
       let units :=
         if hasFlag FLAGS.IS_MMOL flags then "mmol/L" else "mg/dL" in
       raw <- DataView.getUint16 result (offset + 10) true ;;
       value <- getSFLOAT pow10 raw units ;;
       b <- DataView.getUint8 result (offset + 12) ;;
       let type := Z.shiftr b 4 in
       b' <- DataView.getUint8 result (offset + 12) ;;
       let location := JS.logical_and b' 0x0F in
       status <-
         (if hasFlag FLAGS.STATUS_PRESENT flags then
            s <- DataView.getUint16 result (offset + 13) true ;;
            Ok (Some s)
          else Ok None) ;;
       Ok {| g_units := Some units; g_value := Some value;
             g_type := Some type; g_location := Some location;
             g_status := status |}
     else Ok no_glucose) ;;
  Ok {| flags := flags;
        seqNum := seqNum;
        payload := payload;
        timestamp := timestamp;
        units := g_units glucose;
        value := g_value glucose;
        type := g_type glucose;
        location := g_location glucose;
        status := g_status glucose;
        hasContext := hasFlag FLAGS.CONTEXT_INFO flags |}.

(** *** The length the flags demand, as the specification words it *)

(** Ten bytes of flags, sequence number and base date-time; two more
    for the time offset; with the glucose group, two bytes of SFLOAT and
    the type and location byte, then two bytes of status when that flag is
    set as well. *)
Definition requiredLength (flags : Z) : Z :=
  10
  + (if hasFlag FLAGS.TIME_OFFSET_PRESENT flags then 2 else 0)
  + (if hasFlag FLAGS.GLUCOSE_PRESENT flags then
       3 + (if hasFlag FLAGS.STATUS_PRESENT flags then 2 else 0)
     else 0).

(** ** The session *)

(** The [detail] of a dispatched [CustomEvent]: the operand of a count
    response, the object [{ records, contextRecords }], or the empty
    array. *)
Inductive Detail : Type :=
| DetailOperand (operand : Z)
| DetailData (records : list MeasurementRecord)
             (contextRecords : list ContextRecord.t)
| DetailEmpty.

Inductive CustomEvent : Type :=
| NewCustomEvent (name : string) (detail : Detail).

(** The instance [self]: the two record arrays, and, as logs, the events
    it dispatched and the commands written to the RACP characteristic,
    oldest first. *)
Record Session : Type := {
  records : list MeasurementRecord;
  contextRecords : list ContextRecord.t;
  dispatched : list CustomEvent;
  written : list (list Z)
}.

(** [constructor()]. *)
Definition newSession : Session :=
  {| records := []; contextRecords := []; dispatched := []; written := [] |}.

Definition set_records (self : Session) (rs : list MeasurementRecord) : Session :=
  {| records := rs; contextRecords := contextRecords self;
     dispatched := dispatched self; written := written self |}.

Definition set_contextRecords (self : Session) (cs : list ContextRecord.t) : Session :=
  {| records := records self; contextRecords := cs;
     dispatched := dispatched self; written := written self |}.

(** [self.dispatchEvent(ev)]. *)
Definition dispatchEvent (self : Session) (ev : CustomEvent) : Session :=
  {| records := records self; contextRecords := contextRecords self;
     dispatched := dispatched self ++ [ev]; written := written self |}.

(** [this.racp.writeValueWithResponse(new Uint8Array(cmd))], the
    transport taking the write. *)
Definition sendCommand (self : Session) (cmd : list Z) : Session :=
  {| records := records self; contextRecords := contextRecords self;
     dispatched := dispatched self; written := written self ++ [cmd] |}.

(** The five bytes [getDeltaNumberOfRecords] and [getDeltaRecords] fill
    in: op code, operator 0x03, filter type 0x01 and [seqNum] as a
    little-endian uint16. *)
Definition deltaCommand (opCode seqNum : Z) : list Z :=
  let u := seqNum mod 0x10000 in
  [opCode; 0x03; 0x01; Z.land u 0xFF; Z.shiftr u 8].

Definition getNumberOfRecords (self : Session) : Session :=
  sendCommand self [0x04; 0x01].

Definition getDeltaNumberOfRecords (self : Session) (seqNum : Z) : Session :=
  let buffer := deltaCommand 0x04 seqNum in
  sendCommand self buffer.

Definition getAllRecords (self : Session) : Session :=
  let self := set_records self [] in
  let self := set_contextRecords self [] in
  sendCommand self [0x01; 0x01].

Definition getDeltaRecords (self : Session) (seqNum : Z) : Session :=
  let buffer := deltaCommand 0x01 seqNum in
  let self := set_records self [] in
  let self := set_contextRecords self [] in
  sendCommand self buffer.

(** ** Notification handlers *)

(** [a[a.length - 1]?.seqNum]: [None] is [undefined]. *)
Definition lastSeqNum (a : list MeasurementRecord) : option Z :=
  option_map seqNum (JS.index a (Z.of_nat (List.length a) - 1)).

(** [n !== x] for a number [n] and [x] a number or [undefined]. *)
Definition strict_neq (n : Z) (x : option Z) : bool :=
  match x with
  | Some m => negb (n =? m)
  | None => true
  end.

Definition handleContextNotifications (self : Session) (value : DataView.t)
  : Session * JS.result unit :=
  match parseMeasurementContext value with
  | Throw e => (self, Throw e)
  | Ok parsed =>
      (set_contextRecords self (contextRecords self ++ [parsed]), Ok tt)
  end.

Definition handleNotifications (self : Session) (value : DataView.t)
  : Session * JS.result unit :=
  match parseGlucoseMeasurement value with
  | Throw e => (self, Throw e)
  | Ok parsed =>
      if strict_neq (seqNum parsed) (lastSeqNum (records self)) then
        (set_records self (records self ++ [parsed]), Ok tt)
      else
        (self, Ok tt)
  end.

(** [this.racpObject]. *)
Record RacpObject : Type := {
  opCode : Z;
  operator : Z;
  operand : Z
}.

Definition readRacpObject (value : DataView.t) : JS.result RacpObject :=
  opCode <- DataView.getUint8 value 0 ;;
  operator <- DataView.getUint8 value 1 ;;
  operand <- DataView.getUint16 value 2 true ;;
  Ok {| opCode := opCode; operator := operator; operand := operand |}.

Definition handleRACP (self : Session) (value : DataView.t)
  : Session * JS.result unit :=
  match readRacpObject value with
  | Throw e => (self, Throw e)
  | Ok racpObject =>
      if opCode racpObject =? 0x05 then
        (dispatchEvent self
           (NewCustomEvent "numberOfRecords"
              (DetailOperand (operand racpObject))),
         Ok tt)
      else if opCode racpObject =? 0x06 then
        if operand racpObject =? 0x0101 then
          (dispatchEvent self
             (NewCustomEvent "data"
                (DetailData (records self) (contextRecords self))),
           Ok tt)
        else if operand racpObject =? 0x0601 then
          (dispatchEvent self (NewCustomEvent "data" DetailEmpty), Ok tt)
        else
          (self, Ok tt)
      else
        (self, Throw (Error "Unrecognized op code"))
  end.

(** A run of measurement notifications, each handler call finishing
    before the next; a handler that throws leaves the session as it
    was and the run goes on with the next notification. *)
Definition handleAllNotifications (self : Session) (values : list DataView.t)
  : Session :=
  List.fold_left (fun s v => fst (handleNotifications s v)) values self.

(** ** The record store and the base date-time, as the specification
    words them *)

(** [reset()]: clears both sequences. *)
Definition reset (self : Session) : Session :=
  set_contextRecords (set_records self []) [].

(** [appendMeasurement(record)]: appends unless the record's sequence
    number equals that of the most recently appended record. *)
Definition appendMeasurement (store : list MeasurementRecord)
    (record : MeasurementRecord) : list MeasurementRecord :=
  match List.rev store with
  | latest :: _ =>
      if seqNum latest =? seqNum record then store else store ++ [record]
  | [] => store ++ [record]
  end.

(** The records of the notifications that parse, in arrival order. *)
Definition parsedRecords (values : list DataView.t) : list MeasurementRecord :=
  List.flat_map
    (fun v => match parseGlucoseMeasurement v with
              | Ok r => [r]
              | Throw _ => []
              end) values.

(** Month 13 is replaced by 1; any other month is kept. *)
Definition normalizeMonth (m : Z) : Z := if m =? 13 then 1 else m.

(** The base date-time of bytes 3 to 9: year as uint16 LE, then month,
    day, hours, minutes and seconds, with the month normalized. *)
Definition baseDateTime (result : DataView.t) : option DateTime :=
  match DataView.byteAt result 3, DataView.byteAt result 4,
        DataView.byteAt result 5, DataView.byteAt result 6,
        DataView.byteAt result 7, DataView.byteAt result 8,
        DataView.byteAt result 9 with
  | Some y0, Some y1, Some mo, Some d, Some h, Some mi, Some s =>
      Some {| year := y0 + 256 * y1; month := normalizeMonth mo; day := d;
              hours := h; minutes := mi; seconds := s |}
  | _, _, _, _, _, _, _ => None
  end.

End Engine.

Arguments MeasurementRecord : clear implicits.
Arguments Session : clear implicits.

(** ** Sample buffers *)

(** A measurement notification with no optional field: flags 0x00,
    sequence number [seq], base date-time 2019-06-15 12:30:00. *)
Definition plainMeasurement (seq : byte) : DataView.t :=
  [x00; seq; x00; xe3; x07; x06; x0f; x0c; x1e; x00].

(** Flags 0x02 (glucose present, mg/dL), sequence number 1, SFLOAT
    0xB064 and the type and location byte 0x1A. *)
Definition glucoseMeasurement : DataView.t :=
  [x02; x01; x00; xe3; x07; x06; x0f; x0c; x1e; x00; x64; xb0; x1a].

(** Flags 0x01 (time offset present), base month byte 13, offset
    0xFFC4 = -60 minutes. *)
Definition offsetMeasurement : DataView.t :=
  [x01; x07; x00; xe3; x07; x0d; x0f; x0c; x1e; x00; xc4; xff].

(** A context notification with the carbohydrate and meal flags (0x03),
    sequence number 1, carbohydrate id 0x01, amount 0x1234 and meal
    code 0x05. *)
Definition carbsMealContext : DataView.t :=
  [x03; x01; x00; x01; x34; x12; x05].

(** An RACP response: op code 0x06, operand 0x0201 (request op code
    0x01, response code 0x02). *)
Definition racpOtherOperand : DataView.t := [x06; x00; x01; x02].

(** An RACP response with op code 0x09. *)
Definition racpOpCode9 : DataView.t := [x09; x00; x00; x00].

(** [glucoseMeasurement] without its last byte. *)
Definition truncatedGlucoseMeasurement : DataView.t :=
  [x02; x01; x00; xe3; x07; x06; x0f; x0c; x1e; x00; x64; xb0].

(** A stand-in for [sundial.buildTimestamp] to run the engine on the
    samples: the date-time itself. *)
Definition sampleTimestamp (dateTime : DateTime) : DateTime := dateTime.

(** The base date-time of [offsetMeasurement], month normalized. *)
Definition offsetBaseTime : DateTime :=
  {| year := 2019; month := 1; day := 15;
     hours := 12; minutes := 30; seconds := 0 |}.

(** What [offsetMeasurement] parses to under [sampleTimestamp]. *)
Definition offsetRecord : MeasurementRecord DateTime :=
  {| flags := 0x01;
     seqNum := 7;
     payload := Some {| internalTime := offsetBaseTime; timeOffset := -60 |};
     timestamp := offsetBaseTime;
     units := None;
     value := None;
     type := None;
     location := None;
     status := None;
     hasContext := false |}.

(** A session that received one measurement notification. *)
Definition sessionWithOneRecord : Session DateTime :=
  handleAllNotifications samplePow10 sampleTimestamp newSession [plainMeasurement x01].

(** * The rest of the class *)

(** ** Runs of notifications *)

Section Runs.

Variable pow10 : Z -> number.
Context {Timestamp : Type}.
Variable buildTimestamp : DateTime -> Timestamp.

(** What the two value characteristics deliver. *)
Inductive Notification : Type :=
| MeasurementValue (value : DataView.t)
| ContextValue (value : DataView.t).

(** The listener of the characteristic runs to its end; what it throws is
    reported by the platform and the next notification is delivered. *)
Definition deliver (self : Session Timestamp) (n : Notification)
  : Session Timestamp :=
  match n with
  | MeasurementValue value => fst (handleNotifications pow10 buildTimestamp self value)
  | ContextValue value => fst (handleContextNotifications self value)
  end.

Definition deliverAll (self : Session Timestamp) (ns : list Notification)
  : Session Timestamp :=
  List.fold_left deliver ns self.

(** The measurement values among the notifications, in arrival order. *)
Definition measurementValues (ns : list Notification) : list DataView.t :=
  List.flat_map
    (fun n => match n with
              | MeasurementValue value => [value]
              | ContextValue _ => []
              end) ns.

(** The context records of the context notifications that parse, in
    arrival order. *)
Definition parsedContexts (ns : list Notification) : list ContextRecord.t :=
  List.flat_map
    (fun n => match n with
              | ContextValue value =>
                  match parseMeasurementContext value with
                  | Ok r => [r]
                  | Throw _ => []
                  end
              | MeasurementValue _ => []
              end) ns.

(** The records of [l] that do not repeat the sequence number of the
    record before them, [prev] being the sequence number before the first. *)
Fixpoint collapseFrom (prev : Z) (l : list (MeasurementRecord Timestamp))
  : list (MeasurementRecord Timestamp) :=
  match l with
  | [] => []
  | r :: l' =>
      if seqNum r =? prev then collapseFrom prev l'
      else r :: collapseFrom (seqNum r) l'
  end.

(** Every run of consecutive records with one sequence number, reduced
    to its first record. *)
Definition collapseRuns (l : list (MeasurementRecord Timestamp))
  : list (MeasurementRecord Timestamp) :=
  match l with
  | [] => []
  | r :: l' => r :: collapseFrom (seqNum r) l'
  end.

End Runs.

(** No two neighbours of the list are equal. *)
Fixpoint adjacentDistinct (l : list Z) : bool :=
  match l with
  | a :: (b :: _) as l' => negb (a =? b) && adjacentDistinct l'
  | _ => true
  end.

(** ** Buffer lengths of the context record *)

(** The number of bytes the reads of [parseMeasurementContext] reach: three
    for flags and sequence number, one for the extended flags, three for the
    carbohydrate id and amount; the meal code adds a byte only without the
    carbohydrate group, whose last byte it is read from otherwise. *)
Definition contextRequiredLength (flags : Z) : Z :=
  3
  + (if hasFlag CONTEXT_FLAGS.EXTENDED flags then 1 else 0)
  + (if hasFlag CONTEXT_FLAGS.CARBS flags then 3
     else if hasFlag CONTEXT_FLAGS.MEAL flags then 1 else 0).

(** ** buf2hex *)

(** The digit of [Number.prototype.toString(16)] for a value below 16. *)
Definition hexDigit (d : N) : ascii :=
  if (d <? 10)%N then ascii_of_N (48 + d) else ascii_of_N (87 + d).

(** The value of a digit [hexDigit] writes. *)
Definition hexValue (c : ascii) : N :=
  let n := N_of_ascii c in
  if (n <? 58)%N then (n - 48)%N else (n - 87)%N.

Fixpoint toString16_from (fuel : nat) (n : N) (acc : string) : string :=
  match fuel with
  | O => acc
  | S fuel' =>
      let acc' := String (hexDigit (n mod 16)) acc in
      if (n / 16 =? 0)%N then acc' else toString16_from fuel' (n / 16) acc'
  end.

(** [n.toString(16)] for a non-negative integer [n]: its digits in base
    16, lower case, most significant first. *)
Definition toString16 (n : N) : string :=
  toString16_from (S (N.to_nat (N.log2 n))) n "".

(** [repeat] on characters. *)
Fixpoint replicate (n : nat) (c : ascii) (s : string) : string :=
  match n with
  | O => s
  | S n' => String c (replicate n' c s)
  end.

(** [s.padStart(targetLength, c)] for a one-character pad [c]. *)
Definition padStart (s : string) (targetLength : nat) (c : ascii) : string :=
  replicate (targetLength - String.length s) c s.

Definition buf2hex (buffer : list byte) : string :=
  String.concat " "
    (List.map (fun b => padStart (toString16 (Byte.to_N b)) 2 "0"%char) buffer).

(** ** getDeviceInfo *)

Module DeviceInformation.

Section GetDeviceInfo.

(** [BluetoothUUID.getCharacteristic] and the [decode] of
    [new TextDecoder('utf-8')], both of the platform. *)
Variable getCharacteristic : string -> string.
Variable decode : list byte -> string.

(** A characteristic of the device information service: its [uuid] and
    what [readValue()] settles to, the bytes of the value or a rejection. *)
Record Characteristic : Type := {
  uuid : string;
  readValue : JS.result (list byte)
}.

(** [self.deviceInfo]; a property that was never assigned is [None]. *)
Record DeviceInfo : Type := {
  manufacturers : option (list string);
  model : option string
}.

(** The loop over [characteristics], from index [i] on; [info] is
    [self.deviceInfo].  A rejected read ends the loop with the exception
    and leaves [self.deviceInfo] as far as it was filled. *)
Fixpoint readCharacteristics (characteristics : list Characteristic)
    (info : DeviceInfo) : DeviceInfo * JS.result unit :=
  match characteristics with
  | [] => (info, Ok tt)
  | c :: rest =>
      if (uuid c =? getCharacteristic "manufacturer_name_string")%string then
        match readValue c with
        | Ok v =>
            readCharacteristics rest
              {| manufacturers := Some [decode v]; model := model info |}
        | Throw e => (info, Throw e)
        end
      else if (uuid c =? getCharacteristic "model_number_string")%string then
        match readValue c with
        | Ok v =>
            readCharacteristics rest
              {| manufacturers := manufacturers info; model := Some (decode v) |}
        | Throw e => (info, Throw e)
        end
      else readCharacteristics rest info
  end.

(** [getDeviceInfo()], once [getCharacteristics()] has resolved to
    [characteristics]: [self.deviceInfo] afterwards, and what is returned
    or thrown. *)
Definition getDeviceInfo (characteristics : list Characteristic)
  : DeviceInfo * JS.result DeviceInfo :=
  let deviceInfo := {| manufacturers := None; model := None |} in
  match readCharacteristics characteristics deviceInfo with
  | (deviceInfo, Ok _) => (deviceInfo, Ok deviceInfo)
  | (deviceInfo, Throw e) => (deviceInfo, Throw e)
  end.

(** The characteristics the loop reads. *)
Definition isManufacturer (c : Characteristic) : bool :=
  (uuid c =? getCharacteristic "manufacturer_name_string")%string.

Definition isModel (c : Characteristic) : bool :=
  negb (isManufacturer c)
  && (uuid c =? getCharacteristic "model_number_string")%string.

Definition isRead (c : Characteristic) : bool :=
  isManufacturer c || isModel c.

(** The value of the last characteristic of the list that passes [test]. *)
Definition lastValue (test : Characteristic -> bool)
    (characteristics : list Characteristic) : option (JS.result (list byte)) :=
  option_map readValue (List.find test (List.rev characteristics)).

End GetDeviceInfo.

(** Stand-ins for the platform, to run [getDeviceInfo] on samples: the
    name of a characteristic as its uuid, and bytes read as characters. *)
Definition sampleUuid (name : string) : string := name.

Definition sampleDecode (bytes : list byte) : string :=
  String.string_of_list_byte bytes.

(** A device information service with two model characteristics around
    a serial number that cannot be read, and a manufacturer. *)
Definition sampleCharacteristics : list Characteristic :=
  [ {| uuid := "model_number_string"; readValue := Ok [x41] |};
    {| uuid := "serial_number_string";
       readValue := Throw (Error "NotSupportedError") |};
    {| uuid := "manufacturer_name_string"; readValue := Ok [x69; x53] |};
    {| uuid := "model_number_string"; readValue := Ok [x42] |} ].

(** A manufacturer characteristic whose read is rejected. *)
Definition rejectedCharacteristic : Characteristic :=
  {| uuid := "manufacturer_name_string";
     readValue := Throw (Error "NetworkError") |}.

End DeviceInformation.

(** ** disconnect *)

Module Disconnect.

(** The three characteristics the instance holds. *)
Inductive Slot : Type := GlucoseMeasurement | GlucoseMeasurementContext | Racp.

(** What [disconnect] asks of the platform. *)
Inductive Call : Type :=
| RemoveEventListener (slot : Slot)
| StopNotifications (slot : Slot)
| GattDisconnect.

(** The properties of the instance that [disconnect] uses.  [device] is
    [None] before [scan] sets it, and else holds [device.gatt.connected];
    a characteristic is [false] when its property is [null] or
    [undefined]. *)
Record Client : Type := {
  device : option bool;
  glucoseMeasurement : bool;
  glucoseMeasurementContext : bool;
  racp : bool
}.

Definition held (c : Client) (slot : Slot) : bool :=
  match slot with
  | GlucoseMeasurement => glucoseMeasurement c
  | GlucoseMeasurementContext => glucoseMeasurementContext c
  | Racp => racp c
  end.

(** [this.<slot> = null]. *)
Definition release (c : Client) (slot : Slot) : Client :=
  match slot with
  | GlucoseMeasurement =>
      {| device := device c; glucoseMeasurement := false;
         glucoseMeasurementContext := glucoseMeasurementContext c;
         racp := racp c |}
  | GlucoseMeasurementContext =>
      {| device := device c; glucoseMeasurement := glucoseMeasurement c;
         glucoseMeasurementContext := false; racp := racp c |}
  | Racp =>
      {| device := device c; glucoseMeasurement := glucoseMeasurement c;
         glucoseMeasurementContext := glucoseMeasurementContext c;
         racp := false |}
  end.

(** One [try { ... } catch (err) { debug(...) }] block.  On a property
    that is [null] the call of [removeEventListener] throws a [TypeError],
    which the block catches; else [removeEventListener] is called,
    [stopNotifications()] is awaited, and the property is set to [null]
    when that resolved ([stops]), not when it was rejected. *)
Definition stopBlock (stops : Slot -> bool) (slot : Slot)
    (st : Client * list Call) : Client * list Call :=
  let '(c, calls) := st in
  if held c slot then
    let calls := calls ++ [RemoveEventListener slot; StopNotifications slot] in
    if stops slot then (release c slot, calls) else (c, calls)
  else (c, calls).

(** [disconnect()], with [stops] telling which [stopNotifications()]
    resolve; [device.gatt.disconnect()] leaves [connected] false, and the
    connection is taken not to drop by itself while the blocks run.
    Returns the instance afterwards and the calls made, oldest first. *)
Definition disconnect (stops : Slot -> bool) (c : Client)
  : Client * list Call :=
  match device c with
  | None => (c, [])
  | Some _ =>
      let st := stopBlock stops GlucoseMeasurement (c, []) in
      let st := stopBlock stops GlucoseMeasurementContext st in
      let st := stopBlock stops Racp st in
      let '(c, calls) := st in
      match device c with
      | Some true =>
          ({| device := Some false;
              glucoseMeasurement := glucoseMeasurement c;
              glucoseMeasurementContext := glucoseMeasurementContext c;
              racp := racp c |},
           calls ++ [GattDisconnect])
      | _ => (c, calls)
      end
  end.

(** The three blocks, in the order [disconnect] runs them. *)
Definition slots : list Slot :=
  [GlucoseMeasurement; GlucoseMeasurementContext; Racp].

(** The calls of the blocks for the characteristics [holds] picks. *)
Definition stopCalls (holds : Slot -> bool) : list Call :=
  List.flat_map
    (fun slot =>
       if holds slot
       then [RemoveEventListener slot; StopNotifications slot]
       else []) slots.

(** A connected instance that holds its three characteristics. *)
Definition sampleClient : Client :=
  {| device := Some true; glucoseMeasurement := true;
     glucoseMeasurementContext := true; racp := true |}.

End Disconnect.

(** ** More samples *)

(** What [glucoseMeasurement] parses to under [sampleTimestamp]. *)
Definition glucoseRecord : MeasurementRecord DateTime :=
  {| flags := 0x02;
     seqNum := 1;
     payload := None;
     timestamp := {| year := 2019; month := 6; day := 15;
                     hours := 12; minutes := 30; seconds := 0 |};
     units := Some "mg/dL";
     value := Some (JS.ofZ 100);
     type := Some 1;
     location := Some 0x0F;
     status := None;
     hasContext := false |}.

(** What [carbsMealContext] parses to. *)
Definition carbsMealRecord : ContextRecord.t :=
  {| ContextRecord.flags := 0x03;
     ContextRecord.seqNum := 1;
     ContextRecord.extended := None;
     ContextRecord.carbID := Some 0x01;
     ContextRecord.carbUnits := Some 0x1234;
     ContextRecord.meal := Some 0x12 |}.

(** * Properties *)

(** ** The SFLOAT decoder *)

Lemma toInt32_small (z : Z) : - 2 ^ 31 <= z < 2 ^ 31 -> JS.toInt32 z = z.
Proof.
  unfold JS.toInt32.
  change (2 ^ 31) with 2147483648. change (2 ^ 32) with 4294967296.
  intros H. rewrite Z.mod_small; lia.
Qed.

(** On a 16-bit value [>> 12] is the quotient by 2^12 and [& 0x0FFF] the
    remainder. *)
Lemma shiftRight_12_div (v : Z) :
  0 <= v < 0x10000 -> JS.shiftRight v 12 = v / 2 ^ 12.
Proof.
  intros H. unfold JS.shiftRight.
  rewrite toInt32_small by (change (2 ^ 31) with 2147483648; lia).
  apply Z.shiftr_div_pow2. lia.
Qed.

Lemma land_0FFF_mod (v : Z) : Z.land v 0x0FFF = v mod 2 ^ 12.
Proof. change 0x0FFF with (Z.ones 12). apply Z.land_ones. lia. Qed.

Lemma bitAnd_0FFF_mod (v : Z) :
  0 <= v < 0x10000 -> JS.bitAnd v 0x0FFF = v mod 2 ^ 12.
Proof.
  intros H. unfold JS.bitAnd.
  rewrite (toInt32_small v) by (change (2 ^ 31) with 2147483648; lia).
  rewrite (toInt32_small 0x0FFF) by (change (2 ^ 31) with 2147483648; lia).
  apply land_0FFF_mod.
Qed.

Lemma twos_complement_12_range (x : Z) :
  0 <= x < 4096 -> -2048 <= twos_complement 12 x <= 2047.
Proof.
  unfold twos_complement. change (2 ^ (12 - 1)) with 2048.
  change (2 ^ 12) with 4096.
  destruct (x >=? 2048) eqn:G; lia.
Qed.

Lemma twos_complement_4_range (x : Z) :
  0 <= x < 16 -> -8 <= twos_complement 4 x <= 7.
Proof.
  unfold twos_complement. change (2 ^ (4 - 1)) with 8.
  change (2 ^ 4) with 16.
  destruct (x >=? 8) eqn:G; lia.
Qed.

(** The fields of a 16-bit value are in the ranges of [mantissas] and
    [exponents]. *)
Lemma sfloat_fields_range (v : Z) (u : Unit) :
  0 <= v < 0x10000 ->
  -2048 <= twos_complement 12 (v mod 2 ^ 12) <= 2047
  /\ -8 <= twos_complement 4 (v / 2 ^ 12) <= 7
  /\ -5 <= twos_complement 4 (v / 2 ^ 12) + unit_bias u <= 12.
Proof.
  intros Hv.
  pose proof (twos_complement_12_range (v mod 2 ^ 12)
                (Z.mod_pos_bound v (2 ^ 12) ltac:(lia))) as M.
  assert (E : -8 <= twos_complement 4 (v / 2 ^ 12) <= 7).
  { apply twos_complement_4_range. change (2 ^ 12) with 4096.
    Z.div_mod_to_equations. lia. }
  split; [exact M|]. split; [exact E|].
  destruct u; cbn [unit_bias]; lia.
Qed.

(** *** The products, one by one *)

(** Every mantissa, with every power an accurate engine may return for
    every exponent, by evaluation. *)
Lemma allProductsChecked :
  List.forallb
    (fun e =>
       List.forallb
         (fun p => List.forallb (productChecked e p) mantissas)
         (enginePowers e))
    exponents = true.
Proof. vm_compute. reflexivity. Qed.

Lemma allHundredsChecked :
  List.forallb
    (fun e =>
       if (0 <=? e) && (e <=? 10)
       then List.forallb (hundredChecked e) mantissas
       else true)
    exponents = true.
Proof. vm_compute. reflexivity. Qed.

Lemma mantissas_complete (m : Z) : -2048 <= m <= 2047 -> In m mantissas.
Proof.
  intros H. unfold mantissas.
  replace m with (Z.of_nat (Z.to_nat (m + 2048)) + -2048) by lia.
  apply (in_map (fun i => Z.of_nat i + -2048)), in_seq. lia.
Qed.

Lemma exponents_complete (e : Z) : -5 <= e <= 12 -> In e exponents.
Proof.
  intros H. unfold exponents.
  replace e with (Z.of_nat (Z.to_nat (e + 5)) + -5) by lia.
  apply (in_map (fun i => Z.of_nat i + -5)), in_seq. lia.
Qed.

Lemma product_checked (e : Z) (p : number) (m : Z) :
  -5 <= e <= 12 -> -2048 <= m <= 2047 -> In p (enginePowers e) ->
  productChecked e p m = true.
Proof.
  intros E M P.
  pose proof allProductsChecked as A.
  rewrite forallb_forall in A. specialize (A e (exponents_complete e E)).
  rewrite forallb_forall in A. specialize (A p P).
  rewrite forallb_forall in A. exact (A m (mantissas_complete m M)).
Qed.

Lemma sameNumber_eq (x y : number) : sameNumber x y = true -> x = y.
Proof.
  destruct x as [s|s| |s m e], y as [s'|s'| |s' m' e'];
    cbn [sameNumber]; intros H; try discriminate H.
  - now rewrite (eqb_prop _ _ H).
  - now rewrite (eqb_prop _ _ H).
  - reflexivity.
  - apply andb_prop in H as [H E]. apply andb_prop in H as [S M].
    apply eqb_prop in S. apply Pos.eqb_eq in M. apply Z.eqb_eq in E.
    now subst.
Qed.

Lemma hundred_checked (e m : Z) :
  0 <= e <= 10 -> -2048 <= m <= 2047 -> hundredChecked e m = true.
Proof.
  intros E M.
  pose proof allHundredsChecked as A.
  rewrite forallb_forall in A.
  specialize (A e (exponents_complete e ltac:(lia))). cbv beta in A.
  rewrite (proj2 (Z.leb_le 0 e)), (proj2 (Z.leb_le e 10)) in A by lia.
  cbn [andb] in A.
  rewrite forallb_forall in A. exact (A m (mantissas_complete m M)).
Qed.

(** What [productChecked] decides. *)
Lemma productChecked_spec (e : Z) (p : number) (m : Z) :
  productChecked e p m = true ->
  exists q,
    exactValue (JS.multiply (JS.ofZ m) p) = Some q
    /\ (0 <= e -> q = inject_Z (m * 10 ^ e))
    /\ (Qabs (q - inject_Z m * inject_Z 10 ^ e) * 2 ^ 50
        <= Qabs (inject_Z m * inject_Z 10 ^ e))%Q
    /\ ((q == 0)%Q <-> m = 0)
    /\ ((q < 0)%Q <-> m < 0)
    /\ (- (2048 * 10 ^ 12) <= q <= 2047 * 10 ^ 12)%Q.
Proof.
  unfold productChecked.
  destruct (exactValue (JS.multiply (JS.ofZ m) p)) as [q|]; [|discriminate].
  cbv zeta. intros H.
  apply andb_prop in H as [H B6]. apply andb_prop in H as [H B5].
  apply andb_prop in H as [H B4]. apply andb_prop in H as [H B3].
  apply andb_prop in H as [B1 B2].
  apply Qle_bool_iff in B2, B5, B6. apply eqb_prop in B3, B4.
  exists q. split; [reflexivity|].
  split; [|split; [exact B2|split; [|split; [|split; assumption]]]].
  - intros E. rewrite (proj2 (Z.leb_le 0 e) E) in B1.
    apply andb_prop in B1 as [N D].
    apply Z.eqb_eq in N. apply Pos.eqb_eq in D.
    destruct q as [n d]. cbn [Qnum Qden] in N, D. subst. reflexivity.
  - rewrite <- Qeq_bool_iff, B3. apply Z.eqb_eq.
  - split.
    + intros L. destruct (0 <=? m) eqn:G; [|lia].
      apply Qle_bool_iff in B4. now apply Qlt_not_le in L.
    + intros L. apply Qnot_le_lt. intros G.
      apply Qle_bool_iff in G. rewrite B4 in G. lia.
Qed.

Section DecoderProperties.

Variable pow10 : Z -> number.

(** With none of the reserved patterns, the decoder is the numeric branch
    alone. *)
Lemma getSFLOAT_numeric (v : Z) (units : string) :
  sfloat_reserved v = None ->
  getSFLOAT pow10 v units =
    (exponent <-
       (if (units =? "mg/dL")%string
        then Ok (twos_complement 4 (JS.shiftRight v 12) + 5)
        else if (units =? "mmol/L")%string
             then Ok (twos_complement 4 (JS.shiftRight v 12) + 3)
             else Throw (Error "Illegal units for glucose value")) ;;
     Ok (JS.multiply (JS.ofZ (twos_complement 12 (JS.bitAnd v 0x0FFF)))
           (pow10 exponent))).
Proof.
  unfold sfloat_reserved, getSFLOAT, twos_complement.
  destruct (v =? 0x07FF); [discriminate|].
  destruct (v =? 0x0800); [discriminate|].
  destruct (v =? 0x0801); [discriminate|].
  destruct (v =? 0x07FE); [discriminate|].
  destruct (v =? 0x0802); [discriminate|].
  intros _. cbv zeta.
  set (exponent := JS.shiftRight v 12).
  set (mantissa := JS.bitAnd v 0x0FFF).
  change (2 ^ (4 - 1)) with 8. change (2 ^ 4) with 16.
  change (2 ^ (12 - 1)) with 2048. change (2 ^ 12) with 4096.
  replace (- (15 + 1 - exponent)) with (exponent - 16) by lia.
  replace (- (4095 + 1 - mantissa)) with (mantissa - 4096) by lia.
  reflexivity.
Qed.

(** The numeric branch on a 16-bit value and one of the two units. *)
Lemma getSFLOAT_numeric16 (v : Z) (u : Unit) :
  0 <= v < 0x10000 -> sfloat_reserved v = None ->
  getSFLOAT pow10 v (unit_name u) =
    Ok (JS.multiply (JS.ofZ (twos_complement 12 (v mod 2 ^ 12)))
          (pow10 (twos_complement 4 (v / 2 ^ 12) + unit_bias u))).
Proof.
  intros Hv R.
  rewrite (getSFLOAT_numeric _ _ R), shiftRight_12_div, bitAnd_0FFF_mod
    by exact Hv.
  now destruct u.
Qed.

(** A reserved pattern is answered before the unit selector is looked at. *)
Lemma getSFLOAT_reserved (v : Z) (units : string) (sentinel : number) :
  sfloat_reserved v = Some sentinel ->
  getSFLOAT pow10 v units = Ok sentinel.
Proof.
  unfold sfloat_reserved, getSFLOAT.
  destruct (v =? 0x07FF); [congruence|].
  destruct (v =? 0x0800); [congruence|].
  destruct (v =? 0x0801) eqn:E1.
  - destruct (v =? 0x07FE) eqn:E2; [lia|].
    destruct (v =? 0x0802) eqn:E3; [lia|]. congruence.
  - destruct (v =? 0x07FE); [congruence|].
    destruct (v =? 0x0802); [congruence|]. discriminate.
Qed.

(** With one of the two units the decoder returns. *)
Lemma getSFLOAT_unit_returns (v : Z) (u : Unit) :
  exists n, getSFLOAT pow10 v (unit_name u) = Ok n.
Proof.
  destruct (sfloat_reserved v) as [sentinel|] eqn:R.
  - exists sentinel. now apply getSFLOAT_reserved.
  - rewrite (getSFLOAT_numeric _ _ R). destruct u; simpl; eauto.
Qed.

(** On the exponents that are not negative an accurate engine returns the
    power of ten itself. *)
Lemma accuratePow10_exact (e : Z) :
  accuratePow10 pow10 -> 0 <= e <= 12 -> pow10 e = nearestPow10 e.
Proof.
  intros A E. specialize (A e ltac:(lia)). unfold enginePowers in A.
  rewrite (proj2 (Z.ltb_ge e 0)) in A by lia.
  destruct A as [A|[]]. now symmetry.
Qed.

(** What a 16-bit value that is not reserved decodes to, with an accurate
    engine: the product of its mantissa and the engine's power of ten,
    and what that product was checked to be. *)
Lemma getSFLOAT_value (v : Z) (u : Unit) :
  accuratePow10 pow10 ->
  0 <= v < 0x10000 -> sfloat_reserved v = None ->
  exists r q,
    getSFLOAT pow10 v (unit_name u) = Ok r
    /\ exactValue r = Some q
    /\ (0 <= twos_complement 4 (v / 2 ^ 12) + unit_bias u ->
        q = inject_Z (twos_complement 12 (v mod 2 ^ 12)
                      * 10 ^ (twos_complement 4 (v / 2 ^ 12) + unit_bias u)))
    /\ (Qabs (q - inject_Z (twos_complement 12 (v mod 2 ^ 12))
                  * inject_Z 10
                    ^ (twos_complement 4 (v / 2 ^ 12) + unit_bias u))
        * 2 ^ 50
        <= Qabs (inject_Z (twos_complement 12 (v mod 2 ^ 12))
                 * inject_Z 10
                   ^ (twos_complement 4 (v / 2 ^ 12) + unit_bias u)))%Q
    /\ ((q == 0)%Q <-> twos_complement 12 (v mod 2 ^ 12) = 0)
    /\ ((q < 0)%Q <-> twos_complement 12 (v mod 2 ^ 12) < 0)
    /\ (- (2048 * 10 ^ 12) <= q <= 2047 * 10 ^ 12)%Q.
Proof.
  intros A Hv R.
  destruct (sfloat_fields_range v u Hv) as (M & _ & E).
  destruct (productChecked_spec _ _ _
              (product_checked _ _ _ E M (A _ E))) as (q & V & P).
  eexists. exists q. split; [apply (getSFLOAT_numeric16 v u Hv R)|].
  split; [exact V|exact P].
Qed.

(** C1. For every 16-bit value and either unit, [getSFLOAT] returns what
    the reference definition gives: the sentinel of a reserved pattern,
    and otherwise the product, in native precision, of the mantissa and
    ten to the biased exponent, both fields read as two's complement; the
    reserved patterns give their sentinels under either unit.  With an
    engine whose powers of ten are accurate, what a value that is not
    reserved decodes to stands for the real number mantissa times ten to
    the exponent: for that integer itself when the exponent is not
    negative, and for a binary64 within 2^-50 of it, relatively, in any
    case; 0x000A in mg/dL is 1,000,000 and 0xF0C8 in mmol/L is 20,000. *)
Theorem getSFLOAT_refines_reference :
  (forall (v : Z) (u : Unit), 0 <= v < 0x10000 ->
     getSFLOAT pow10 v (unit_name u) = Ok (sfloat_reference pow10 v u))
  /\ (forall u : Unit,
        getSFLOAT pow10 0x07FF (unit_name u) = Ok NaN
        /\ getSFLOAT pow10 0x0800 (unit_name u) = Ok NaN
        /\ getSFLOAT pow10 0x0801 (unit_name u) = Ok NaN
        /\ getSFLOAT pow10 0x07FE (unit_name u) = Ok POSITIVE_INFINITY
        /\ getSFLOAT pow10 0x0802 (unit_name u) = Ok NEGATIVE_INFINITY)
  /\ (accuratePow10 pow10 ->
      (forall (v : Z) (u : Unit),
         0 <= v < 0x10000 -> sfloat_reserved v = None ->
         let exponent := twos_complement 4 (v / 2 ^ 12) + unit_bias u in
         let mantissa := twos_complement 12 (v mod 2 ^ 12) in
         exists r q,
           getSFLOAT pow10 v (unit_name u) = Ok r
           /\ exactValue r = Some q
           /\ (0 <= exponent -> q = inject_Z (mantissa * 10 ^ exponent))
           /\ (Qabs (q - inject_Z mantissa * inject_Z 10 ^ exponent) * 2 ^ 50
               <= Qabs (inject_Z mantissa * inject_Z 10 ^ exponent))%Q)
      /\ (exists r,
            getSFLOAT pow10 0x000A "mg/dL" = Ok r
            /\ exactValue r = Some (inject_Z 1000000))
      /\ (exists r,
            getSFLOAT pow10 0xF0C8 "mmol/L" = Ok r
            /\ exactValue r = Some (inject_Z 20000))).
Proof.
  split; [|split].
  - intros v u Hv. unfold sfloat_reference.
    destruct (sfloat_reserved v) as [sentinel|] eqn:R.
    + now apply getSFLOAT_reserved.
    + apply (getSFLOAT_numeric16 v u Hv R).
  - intros u. repeat split; now apply getSFLOAT_reserved.
  - intros A. split; [|split].
    + intros v u Hv R. cbv zeta.
      destruct (getSFLOAT_value v u A Hv R) as (r & q & G & V & I & W & _).
      exists r, q. split; [exact G|]. split; [exact V|].
      split; [exact I|exact W].
    + destruct (getSFLOAT_value 0x000A MgDl A ltac:(lia) eq_refl)
        as (r & q & G & V & I & _).
      exists r. split; [exact G|].
      rewrite V. f_equal. apply I. discriminate.
    + destruct (getSFLOAT_value 0xF0C8 MmolL A ltac:(lia) eq_refl)
        as (r & q & G & V & I & _).
      exists r. split; [exact G|].
      rewrite V. f_equal. apply I. discriminate.
Qed.

(** C8, amended. With a unit selector that is neither mg/dL nor mmol/L,
    every value other than the five reserved patterns makes [getSFLOAT]
    throw [Error("Illegal units for glucose value")]; a reserved pattern
    still returns its sentinel. *)
Theorem getSFLOAT_illegal_units (v : Z) (units : string) :
  units <> "mg/dL" -> units <> "mmol/L" ->
  (sfloat_reserved v = None ->
     getSFLOAT pow10 v units = Throw (Error "Illegal units for glucose value"))
  /\ (forall sentinel, sfloat_reserved v = Some sentinel ->
        getSFLOAT pow10 v units = Ok sentinel).
Proof.
  intros Hmg Hmmol. split.
  - intros R. rewrite (getSFLOAT_numeric _ _ R).
    apply String.eqb_neq in Hmg, Hmmol. now rewrite Hmg, Hmmol.
  - intros sentinel. apply getSFLOAT_reserved.
Qed.

End DecoderProperties.

Lemma samplePow10_accurate : accuratePow10 samplePow10.
Proof.
  intros e _. unfold samplePow10, enginePowers.
  destruct (e <? 0); cbn [In]; auto.
Qed.

Lemma getSFLOAT_refines_reference_witness :
  accuratePow10 samplePow10
  /\ 0 <= 0xC029 < 0x10000
  /\ sfloat_reserved 0xC029 = None
  /\ exists r q,
       getSFLOAT samplePow10 0xC029 (unit_name MmolL) = Ok r
       /\ exactValue r = Some q
       /\ (0 <= -1 -> q = inject_Z (41 * 10 ^ (-1)))
       /\ (Qabs (q - inject_Z 41 * inject_Z 10 ^ (-1)) * 2 ^ 50
           <= Qabs (inject_Z 41 * inject_Z 10 ^ (-1)))%Q.
Proof.
  split; [exact samplePow10_accurate|].
  split; [lia|]. split; [reflexivity|].
  apply (proj1 (proj2 (proj2 (getSFLOAT_refines_reference samplePow10))
                  samplePow10_accurate) 0xC029 MmolL);
    [lia|reflexivity].
Defined.

(** C8, as stated, fails: with the reserved pattern 0x07FF the decoder
    returns NaN for a unit that is neither mg/dL nor mmol/L. *)
Lemma getSFLOAT_reserved_ignores_unit :
  (forall pow10, getSFLOAT pow10 0x07FF "kg/L" = Ok NaN)
  /\ (forall pow10,
        ~ (forall (v : Z) (units : string),
             0 <= v < 0x10000 -> units <> "mg/dL" -> units <> "mmol/L" ->
             exists e, getSFLOAT pow10 v units = Throw e)).
Proof.
  split; [reflexivity|].
  intros pow10 H.
  destruct (H 0x07FF "kg/L") as [e He]; [lia|discriminate|discriminate|].
  discriminate He.
Qed.

Lemma getSFLOAT_illegal_units_witness :
  getSFLOAT samplePow10 0x000A "kg/L"
  = Throw (Error "Illegal units for glucose value")
  /\ getSFLOAT samplePow10 0x0802 "kg/L" = Ok NEGATIVE_INFINITY.
Proof.
  assert (Hmg : "kg/L" <> "mg/dL") by discriminate.
  assert (Hmmol : "kg/L" <> "mmol/L") by discriminate.
  split.
  - apply (proj1 (getSFLOAT_illegal_units samplePow10 0x000A "kg/L"
                    Hmg Hmmol)).
    reflexivity.
  - apply (proj2 (getSFLOAT_illegal_units samplePow10 0x0802 "kg/L"
                    Hmg Hmmol)).
    reflexivity.
Defined.

(** ** hasFlag *)

(** ToInt32 keeps the low 32 bits and stays within 32 bits. *)
Lemma toInt32_bits (z n : Z) :
  0 <= n < 32 -> Z.testbit (JS.toInt32 z) n = Z.testbit z n.
Proof.
  intros N.
  rewrite <- (Z.mod_pow2_bits_low (JS.toInt32 z) 32 n) by lia.
  rewrite <- (Z.mod_pow2_bits_low z 32 n) by lia.
  f_equal. unfold JS.toInt32.
  rewrite Zminus_mod_idemp_l. f_equal. lia.
Qed.

Lemma toInt32_range (z : Z) : - 2 ^ 31 <= JS.toInt32 z < 2 ^ 31.
Proof.
  unfold JS.toInt32.
  change (2 ^ 31) with 2147483648. change (2 ^ 32) with 4294967296.
  pose proof (Z.mod_pos_bound (z + 2147483648) 4294967296 ltac:(lia)).
  lia.
Qed.

(** From bit 31 on, a 32-bit integer repeats its sign. *)
Lemma testbit_high (a n : Z) :
  - 2 ^ 31 <= a < 2 ^ 31 -> 31 <= n -> Z.testbit a n = (a <? 0).
Proof.
  intros A N.
  assert (P : 2 ^ 31 <= 2 ^ n) by (apply Z.pow_le_mono_r; lia).
  rewrite Z.testbit_odd, Z.shiftr_div_pow2 by lia.
  destruct (Z.ltb_spec a 0) as [L|L].
  - replace (a / 2 ^ n) with (-1); [reflexivity|].
    apply (Z.div_unique a (2 ^ n) (-1) (a + 2 ^ n)); [left|]; lia.
  - rewrite Z.div_small by lia. reflexivity.
Qed.

(** For a flag of one bit among the 32 that [&] keeps, [hasFlag] is the
    test of that bit, whatever the other bits are. *)
Theorem hasFlag_testbit (k v : Z) :
  0 <= k <= 31 -> hasFlag (2 ^ k) v = Z.testbit v k.
Proof.
  intros K. unfold hasFlag, JS.truthy, JS.bitAnd.
  set (a := JS.toInt32 (2 ^ k)). set (b := JS.toInt32 v).
  assert (L : forall n, 0 <= n < 32 ->
                Z.testbit a n && Z.testbit b n
                = (k =? n) && Z.testbit v n).
  { intros n N. subst a b.
    rewrite !toInt32_bits, Z.pow2_bits_eqb by lia. reflexivity. }
  destruct (Z.testbit v k) eqn:B.
  - destruct (Z.land a b =? 0) eqn:E; [|reflexivity].
    apply Z.eqb_eq in E.
    assert (F : Z.testbit (Z.land a b) k = true)
      by (rewrite Z.land_spec, L, Z.eqb_refl, B by lia; reflexivity).
    rewrite E, Z.bits_0 in F. discriminate F.
  - assert (F : forall n, 0 <= n < 32 ->
                  Z.testbit a n && Z.testbit b n = false).
    { intros n N. rewrite L by exact N.
      destruct (Z.eqb_spec k n) as [<-|]; [now rewrite B|reflexivity]. }
    assert (E : Z.land a b = 0).
    { apply Z.bits_inj'. intros n N. rewrite Z.land_spec, Z.bits_0.
      destruct (Z.lt_ge_cases n 32) as [S|S]; [apply F; lia|].
      rewrite (testbit_high a n), (testbit_high b n)
        by (try apply toInt32_range; lia).
      rewrite <- (testbit_high a 31), <- (testbit_high b 31)
        by (try apply toInt32_range; lia).
      apply F; lia. }
    now rewrite E.
Qed.

Lemma hasFlag_testbit_witness :
  hasFlag (2 ^ 31) 0x80000012 = Z.testbit 0x80000012 31.
Proof.
  apply (hasFlag_testbit 31 0x80000012). lia.
Defined.

(** Beyond them it is not: bit 32 of [2 ^ 32] is set and [hasFlag] does
    not find it. *)
Lemma hasFlag_beyond_32_bits :
  Z.testbit (2 ^ 32) 32 = true /\ hasFlag (2 ^ 32) (2 ^ 32) = false.
Proof. split; reflexivity. Qed.

(** The parsers are run on symbolic bytes from here on: the 32-bit
    reading of an operand stays folded. *)
Opaque JS.toInt32.

(** Inversion of a chain of binds that returned: every bound computation
    returned too. *)
Ltac bind_inv H :=
  repeat
    (cbn beta iota in H;
     match type of H with
     | JS.bind ?r _ = Ok _ =>
         let E := fresh "E" in
         destruct r eqn:E; cbn [JS.bind] in H; [|discriminate H]
     | (let '(_, _) := ?p in _) = Ok _ => destruct p
     end).

Section Properties.

Variable pow10 : Z -> number.
Context {Timestamp : Type}.
Variable buildTimestamp : DateTime -> Timestamp.

Local Abbreviation Session := (Session Timestamp).
Local Abbreviation MeasurementRecord := (MeasurementRecord Timestamp).

(** ** The RACP response handler *)

Lemma readRacpObject_4 (b0 b1 b2 b3 : byte) :
  readRacpObject [b0; b1; b2; b3] =
    Ok {| opCode := DataView.unsigned b0;
          operator := DataView.unsigned b1;
          operand := DataView.unsigned b2 + 256 * DataView.unsigned b3 |}.
Proof. reflexivity. Qed.

(** C2. On a 4-byte RACP response: op code 0x05 dispatches one
    [numberOfRecords] event whose detail is the operand, bytes 2 and 3
    as a little-endian uint16; op code 0x06 with operand 0x0101
    dispatches one [data] event whose detail holds the session's
    measurement and context records; op code 0x06 with operand 0x0601
    dispatches one [data] event whose detail is empty.  In each case
    nothing else of the session changes and nothing is thrown. *)
Theorem handleRACP_dispatches_once (self : Session) (b1 b2 b3 : byte) :
  handleRACP self [x05; b1; b2; b3] =
    (dispatchEvent self
       (NewCustomEvent "numberOfRecords"
          (DetailOperand (DataView.unsigned b2 + 256 * DataView.unsigned b3))),
     Ok tt)
  /\ handleRACP self [x06; b1; x01; x01] =
       (dispatchEvent self
          (NewCustomEvent "data"
             (DetailData (records self) (contextRecords self))),
        Ok tt)
  /\ handleRACP self [x06; b1; x01; x06] =
       (dispatchEvent self (NewCustomEvent "data" DetailEmpty), Ok tt)
  /\ (forall ev, dispatched (dispatchEvent self ev) = dispatched self ++ [ev])
  /\ (forall ev, records (dispatchEvent self ev) = records self
                 /\ contextRecords (dispatchEvent self ev) = contextRecords self).
Proof.
  repeat split.
Qed.

(** An op code other than 0x05 and 0x06 throws, and the session is as
    it was. *)
Lemma handleRACP_unrecognized_opCode (self : Session) (value : DataView.t)
    (racpObject : RacpObject) :
  readRacpObject value = Ok racpObject ->
  opCode racpObject <> 0x05 -> opCode racpObject <> 0x06 ->
  handleRACP self value = (self, Throw (Error "Unrecognized op code")).
Proof.
  intros R H5 H6. unfold handleRACP. rewrite R.
  apply Z.eqb_neq in H5, H6. now rewrite H5, H6.
Qed.

(** Op code 0x06 with an operand other than 0x0101 and 0x0601 falls
    through both tests: no event, no exception. *)
Lemma handleRACP_other_operand (self : Session) (value : DataView.t)
    (racpObject : RacpObject) :
  readRacpObject value = Ok racpObject ->
  opCode racpObject = 0x06 ->
  operand racpObject <> 0x0101 -> operand racpObject <> 0x0601 ->
  handleRACP self value = (self, Ok tt).
Proof.
  intros R H6 H1 H2. unfold handleRACP. rewrite R, H6.
  apply Z.eqb_neq in H1, H2. now rewrite H1, H2.
Qed.

(** C3, amended. An RACP response whose op code is neither 0x05 nor
    0x06 makes [handleRACP] throw [Error("Unrecognized op code")] with
    no event dispatched; a response with op code 0x06 and an operand
    other than 0x0101 and 0x0601 dispatches no event and throws
    nothing: the session is left as it was. *)
Theorem handleRACP_unhandled_responses (self : Session) (value : DataView.t)
    (racpObject : RacpObject) :
  readRacpObject value = Ok racpObject ->
  (opCode racpObject <> 0x05 -> opCode racpObject <> 0x06 ->
     handleRACP self value = (self, Throw (Error "Unrecognized op code")))
  /\ (opCode racpObject = 0x06 ->
      operand racpObject <> 0x0101 -> operand racpObject <> 0x0601 ->
      handleRACP self value = (self, Ok tt)).
Proof.
  intros R. split.
  - now apply handleRACP_unrecognized_opCode.
  - now apply handleRACP_other_operand.
Qed.

(** ** The operations that write an RACP command *)

Lemma sendCommand_records (self : Session) (cmd : list Z) :
  records (sendCommand self cmd) = records self
  /\ contextRecords (sendCommand self cmd) = contextRecords self
  /\ written (sendCommand self cmd) = written self ++ [cmd].
Proof. repeat split. Qed.

(** C10, amended. [getAllRecords] and [getDeltaRecords] clear both
    record sequences and then write their command; the two count
    queries, [getNumberOfRecords] and [getDeltaNumberOfRecords], write
    their command and leave both sequences as they were. *)
Theorem commands_and_the_record_store (self : Session) (seqNum : Z) :
  (records (reset self) = [] /\ contextRecords (reset self) = [])
  /\ getAllRecords self = sendCommand (reset self) [0x01; 0x01]
  /\ getDeltaRecords self seqNum =
       sendCommand (reset self) (deltaCommand 0x01 seqNum)
  /\ (records (getAllRecords self) = []
      /\ contextRecords (getAllRecords self) = [])
  /\ (records (getDeltaRecords self seqNum) = []
      /\ contextRecords (getDeltaRecords self seqNum) = [])
  /\ (records (getNumberOfRecords self) = records self
      /\ contextRecords (getNumberOfRecords self) = contextRecords self
      /\ written (getNumberOfRecords self) = written self ++ [[0x04; 0x01]])
  /\ (records (getDeltaNumberOfRecords self seqNum) = records self
      /\ contextRecords (getDeltaNumberOfRecords self seqNum)
         = contextRecords self
      /\ written (getDeltaNumberOfRecords self seqNum)
         = written self ++ [deltaCommand 0x04 seqNum]).
Proof.
  repeat split.
Qed.

(** ** DataView reads *)

Lemma getUint8_Ok_inv (dv : DataView.t) (i b : Z) :
  DataView.getUint8 dv i = Ok b -> DataView.byteAt dv i = Some b.
Proof.
  unfold DataView.getUint8.
  destruct (DataView.byteAt dv i); [congruence|discriminate].
Qed.

Lemma getUint16_Ok_inv (dv : DataView.t) (i u : Z) :
  DataView.getUint16 dv i true = Ok u ->
  exists b0 b1,
    DataView.byteAt dv i = Some b0
    /\ DataView.byteAt dv (i + 1) = Some b1
    /\ u = b0 + 256 * b1.
Proof.
  unfold DataView.getUint16.
  destruct (DataView.byteAt dv i) as [b0|]; [|discriminate].
  destruct (DataView.byteAt dv (i + 1)) as [b1|]; [|discriminate].
  intros [= <-]. now exists b0, b1.
Qed.

Lemma unsigned_range (b : byte) : 0 <= DataView.unsigned b < 256.
Proof.
  unfold DataView.unsigned. pose proof (Byte.to_N_bounded b). lia.
Qed.

Lemma byteAt_range (dv : DataView.t) (i b : Z) :
  DataView.byteAt dv i = Some b -> 0 <= b < 256.
Proof.
  unfold DataView.byteAt.
  destruct (JS.index dv i) as [x|]; [|discriminate].
  intros [= <-]. apply unsigned_range.
Qed.

Ltac reads_inv :=
  repeat match goal with
    | H : DataView.getUint8 _ _ = Ok _ |- _ => apply getUint8_Ok_inv in H
    | H : DataView.getUint16 _ _ true = Ok _ |- _ =>
        apply getUint16_Ok_inv in H;
        destruct H as (? & ? & H & ? & ?)
    end.

(** ** The context record parser *)

(** Whenever the carbohydrate and meal flags are both set, the meal code
    returned is the high byte of the carbohydrate amount. *)
Lemma meal_is_high_byte_of_carbUnits (result : DataView.t)
    (record : ContextRecord.t) (cursor : Z) :
  parseMeasurementContext_cursor result = Ok (record, cursor) ->
  hasFlag CONTEXT_FLAGS.CARBS (ContextRecord.flags record) = true ->
  hasFlag CONTEXT_FLAGS.MEAL (ContextRecord.flags record) = true ->
  exists amount,
    ContextRecord.carbUnits record = Some amount
    /\ ContextRecord.meal record = Some (amount / 256).
Proof.
  intros H. unfold parseMeasurementContext_cursor in H. bind_inv H.
  injection H as <- <-.
  cbn [ContextRecord.flags ContextRecord.carbUnits ContextRecord.meal].
  intros FC FM.
  match goal with
  | C : (if hasFlag CONTEXT_FLAGS.CARBS _ then _ else _) = Ok _ |- _ =>
      rewrite FC in C; bind_inv C; injection C as <- <- <-
  end.
  match goal with
  | M : (if hasFlag CONTEXT_FLAGS.MEAL _ then _ else _) = Ok _ |- _ =>
      rewrite FM in M; bind_inv M; injection M as <- <-
  end.
  reads_inv.
  match goal with
  | A1 : DataView.byteAt result (?o + 1) = Some ?lo,
    A2 : DataView.byteAt result (?o + 1 + 1) = Some ?hi,
    M : DataView.byteAt result (?o + 2) = Some ?m |- _ =>
      replace (o + 1 + 1) with (o + 2) in A2 by lia;
      rewrite A2 in M; injection M as <-;
      pose proof (byteAt_range _ _ _ A1) as R
  end.
  subst. eexists. split; [reflexivity|]. f_equal.
  rewrite Z.mul_comm, Z.div_add by lia.
  rewrite Z.div_small by lia. lia.
Qed.

(** C6. On the sample context buffer (carbohydrate and meal flags,
    carbohydrate id 0x01, amount 0x1234, meal code 0x05) the parser
    reads the amount from bytes 4 and 5 and then the meal code from
    byte 5, the high byte of the amount, not from byte 6 that follows
    the group; its cursor ends at 6 where 7 bytes were laid out. *)
Theorem parseMeasurementContext_meal_inside_carbs :
  parseMeasurementContext_cursor carbsMealContext =
    Ok ({| ContextRecord.flags := 0x03;
           ContextRecord.seqNum := 1;
           ContextRecord.extended := None;
           ContextRecord.carbID := Some 0x01;
           ContextRecord.carbUnits := Some 0x1234;
           ContextRecord.meal := Some 0x12 |}, 6)
  /\ DataView.byteAt carbsMealContext 5 = Some 0x12
  /\ context_meal_position 0x03 = 6
  /\ DataView.byteAt carbsMealContext (context_meal_position 0x03) = Some 0x05
  /\ carb_group_bytes (context_after_extended 0x03) = [3; 4; 5].
Proof.
  repeat split.
Qed.

(** ** The record store *)

Lemma index_last {A : Type} (l : list A) (x : A) :
  JS.index (l ++ [x]) (Z.of_nat (List.length (l ++ [x])) - 1) = Some x.
Proof.
  unfold JS.index. rewrite length_app. cbn [List.length].
  replace (Z.of_nat (List.length l + 1) - 1) with (Z.of_nat (List.length l))
    by lia.
  rewrite (proj2 (Z.ltb_ge _ _)) by lia.
  rewrite Nat2Z.id, nth_error_app2 by lia.
  now rewrite Nat.sub_diag.
Qed.

(** The element the handler compares with is the latest stored one. *)
Lemma lastSeqNum_latest (store : list MeasurementRecord) :
  lastSeqNum store =
    match List.rev store with
    | latest :: _ => Some (seqNum latest)
    | [] => None
    end.
Proof.
  unfold lastSeqNum.
  destruct store as [|r store'] using rev_ind; [reflexivity|].
  now rewrite index_last, rev_unit.
Qed.

(** One notification that parses: the store's policy, on the measurement
    records alone. *)
Lemma handleNotifications_parsed (self : Session) (value : DataView.t)
    (parsed : MeasurementRecord) :
  parseGlucoseMeasurement pow10 buildTimestamp value = Ok parsed ->
  records (fst (handleNotifications pow10 buildTimestamp self value))
    = appendMeasurement (records self) parsed
  /\ contextRecords (fst (handleNotifications pow10 buildTimestamp self value))
     = contextRecords self
  /\ snd (handleNotifications pow10 buildTimestamp self value) = Ok tt.
Proof.
  intros P. unfold handleNotifications, appendMeasurement, strict_neq.
  rewrite P, lastSeqNum_latest.
  destruct (List.rev (records self)) as [|latest older]; [now repeat split|].
  rewrite Z.eqb_sym.
  destruct (seqNum latest =? seqNum parsed); now repeat split.
Qed.

(** One notification that does not parse: the handler throws what the
    parser threw, and the session is as it was. *)
Lemma handleNotifications_throw (self : Session) (value : DataView.t)
    (e : exn) :
  parseGlucoseMeasurement pow10 buildTimestamp value = Throw e ->
  handleNotifications pow10 buildTimestamp self value = (self, Throw e).
Proof.
  intros P. unfold handleNotifications. now rewrite P.
Qed.

Lemma handleAllNotifications_fold (values : list DataView.t) :
  forall self : Session,
    records (handleAllNotifications pow10 buildTimestamp self values)
    = List.fold_left appendMeasurement
        (parsedRecords pow10 buildTimestamp values) (records self).
Proof.
  unfold handleAllNotifications.
  induction values as [|v values IH]; intros self; [reflexivity|].
  cbn [List.fold_left parsedRecords List.flat_map].
  rewrite IH, fold_left_app. f_equal.
  destruct (parseGlucoseMeasurement pow10 buildTimestamp v) as [parsed|e] eqn:P.
  - now destruct (handleNotifications_parsed self v parsed P) as (-> & _).
  - now rewrite (handleNotifications_throw self v e P).
Qed.

(** C4. Over any run of measurement notifications the stored sequence is
    the one obtained by appending each parsed record unless its sequence
    number equals that of the latest stored record; only that one record
    is looked at: sequence numbers 1,1,2,3,3,3 are stored as 1,2,3 and
    1,2,1 as 1,2,1. *)
Theorem handleNotifications_adjacent_dedup :
  (forall (self : Session) (values : list DataView.t),
     records (handleAllNotifications pow10 buildTimestamp self values)
     = List.fold_left appendMeasurement
         (parsedRecords pow10 buildTimestamp values) (records self))
  /\ List.map seqNum
       (records (handleAllNotifications pow10 buildTimestamp newSession
                  (List.map plainMeasurement [x01; x01; x02; x03; x03; x03])))
     = [1; 2; 3]
  /\ List.map seqNum
       (records (handleAllNotifications pow10 buildTimestamp newSession
                  (List.map plainMeasurement [x01; x02; x01])))
     = [1; 2; 1].
Proof.
  split; [|split].
  - intros self values. apply handleAllNotifications_fold.
  - reflexivity.
  - reflexivity.
Qed.

(** ** The measurement record parser *)

(** C5. The [timestamp] of a parsed record is built from the base
    date-time of bytes 3 to 9 with no offset applied: with the time-offset
    flag the signed 16-bit offset of bytes 10 and 11 is kept in [payload],
    next to the same base timestamp, and without it there is no payload;
    a month byte of 13 enters the timestamp as 1 and every other month,
    1 to 12 among them, as itself. *)
Theorem timestamp_is_base_dateTime (result : DataView.t)
    (record : MeasurementRecord) :
  parseGlucoseMeasurement pow10 buildTimestamp result = Ok record ->
  exists dateTime monthByte,
    baseDateTime result = Some dateTime
    /\ DataView.byteAt result 5 = Some monthByte
    /\ month dateTime = normalizeMonth monthByte
    /\ (monthByte = 13 -> month dateTime = 1)
    /\ (monthByte <> 13 -> month dateTime = monthByte)
    /\ timestamp record = buildTimestamp dateTime
    /\ (hasFlag FLAGS.TIME_OFFSET_PRESENT (flags record) = true ->
        exists ofs,
          DataView.getInt16 result 10 true = Ok ofs
          /\ payload record =
               Some {| internalTime := buildTimestamp dateTime;
                       timeOffset := ofs |})
    /\ (hasFlag FLAGS.TIME_OFFSET_PRESENT (flags record) = false ->
        payload record = None).
Proof.
  intros H. unfold parseGlucoseMeasurement in H. bind_inv H.
  injection H as <-. cbn [flags timestamp payload].
  reads_inv. change (3 + 1) with 4 in *.
  match goal with
  | M : DataView.byteAt result 5 = Some ?m |- _ => rename m into mo
  end.
  unfold baseDateTime.
  repeat match goal with
    | B : DataView.byteAt result _ = Some _ |- _ => rewrite B; clear B
    end.
  subst.
  eexists _, mo. split; [reflexivity|]. cbn [month].
  split; [reflexivity|]. split; [reflexivity|].
  unfold normalizeMonth, set_month.
  split; [intros ->; reflexivity|].
  split; [intros N; apply Z.eqb_neq in N; now rewrite N|].
  split; [now destruct (mo =? 13)|].
  match goal with
  | T : (if hasFlag FLAGS.TIME_OFFSET_PRESENT ?f then _ else _) = Ok _ |- _ =>
      destruct (hasFlag FLAGS.TIME_OFFSET_PRESENT f)
  end.
  - split; [intros _|discriminate].
    match goal with
    | T : JS.bind (DataView.getInt16 result 10 true) _ = Ok _ |- _ =>
        destruct (DataView.getInt16 result 10 true) as [ofs|];
        cbn [JS.bind] in T; [injection T as <- <-|discriminate T]
    end.
    exists ofs. split; [reflexivity|].
    now destruct (mo =? 13).
  - split; [discriminate|intros _].
    match goal with
    | T : Ok (None, _) = Ok _ |- _ => now injection T as <- <-
    end.
Qed.

(** Whatever the byte after the SFLOAT is, [location] can only come out
    as 0 or 0x0F. *)
Lemma location_zero_or_0F (result : DataView.t) (record : MeasurementRecord) :
  parseGlucoseMeasurement pow10 buildTimestamp result = Ok record ->
  location record = None
  \/ location record = Some 0
  \/ location record = Some 0x0F.
Proof.
  intros H. unfold parseGlucoseMeasurement in H. bind_inv H.
  injection H as <-. cbn [location].
  match goal with
  | G : (if hasFlag FLAGS.GLUCOSE_PRESENT ?f then _ else _) = Ok _ |- _ =>
      destruct (hasFlag FLAGS.GLUCOSE_PRESENT f);
      [bind_inv G; injection G as <-|injection G as <-]
  end.
  - cbn [g_location]. unfold JS.logical_and.
    match goal with
    | |- context [if ?b =? 0 then _ else _] =>
        destruct (b =? 0) eqn:B0;
        [apply Z.eqb_eq in B0; rewrite B0; now right; left|now right; right]
    end.
  - now left.
Qed.

(** C7. On the sample measurement buffer (glucose present, type and
    location byte 0x1A) the parser returns sample type 1, the high
    nibble, and sample location 0x0F, where the low nibble of the byte
    is 0x0A. *)
Theorem location_is_not_the_low_nibble :
  exists record,
    parseGlucoseMeasurement pow10 buildTimestamp glucoseMeasurement = Ok record
    /\ DataView.byteAt glucoseMeasurement 12 = Some 0x1A
    /\ type record = Some (Z.shiftr 0x1A 4)
    /\ type record = Some 1
    /\ location record = Some 0x0F
    /\ Z.land 0x1A 0x0F = 0x0A.
Proof.
  eexists. split; [reflexivity|]. repeat split.
Qed.

(** *** Buffer lengths *)

#[local] Arguments DataView.unsigned : simpl never.
#[local] Arguments hasFlag : simpl never.
#[local] Arguments getSFLOAT : simpl never.
#[local] Arguments JS.logical_and : simpl never.

(** Splits the list [l] into as many elements as the hypothesis [H] on
    its length allows. *)
Ltac explode l H :=
  repeat (destruct l as [|? l]; cbn [List.length] in H; try (exfalso; lia)).

(** Runs the parser on a buffer whose shape and flags are known. *)
Ltac run_parser :=
  repeat
    (simpl;
     try match goal with
       | |- context [getSFLOAT pow10 ?raw "mg/dL"] =>
           let n := fresh "n" in
           let N := fresh "N" in
           destruct (getSFLOAT_unit_returns pow10 raw MgDl) as [n N];
           cbn [unit_name] in N; rewrite N; clear N
       | |- context [getSFLOAT pow10 ?raw "mmol/L"] =>
           let n := fresh "n" in
           let N := fresh "N" in
           destruct (getSFLOAT_unit_returns pow10 raw MmolL) as [n N];
           cbn [unit_name] in N; rewrite N; clear N
       end).

Lemma parse_exact_length (f : byte) (rest : list byte) :
  DataView.byteLength (f :: rest) = requiredLength (DataView.unsigned f) ->
  JS.isOk (parseGlucoseMeasurement pow10 buildTimestamp (f :: rest)) = true.
Proof.
  unfold DataView.byteLength, requiredLength, parseGlucoseMeasurement.
  unfold DataView.getInt16, DataView.getUint16, DataView.getUint8,
    DataView.byteAt, JS.index.
  cbn [List.length].
  unfold FLAGS.TIME_OFFSET_PRESENT, FLAGS.GLUCOSE_PRESENT,
    FLAGS.STATUS_PRESENT, FLAGS.IS_MMOL.
  destruct (hasFlag 1 (DataView.unsigned f)) eqn:F1;
    destruct (hasFlag 2 (DataView.unsigned f)) eqn:F2;
    destruct (hasFlag 8 (DataView.unsigned f)) eqn:F8;
    destruct (hasFlag 4 (DataView.unsigned f)) eqn:F4;
    intros L; explode rest L;
    simpl; rewrite ?F1, ?F2, ?F4, ?F8; run_parser;
    rewrite ?F1, ?F2, ?F4, ?F8; run_parser; reflexivity.
Qed.

Lemma parse_one_byte_short (f : byte) (rest : list byte) :
  DataView.byteLength (f :: rest) = requiredLength (DataView.unsigned f) - 1 ->
  parseGlucoseMeasurement pow10 buildTimestamp (f :: rest) = Throw RangeError.
Proof.
  unfold DataView.byteLength, requiredLength, parseGlucoseMeasurement.
  unfold DataView.getInt16, DataView.getUint16, DataView.getUint8,
    DataView.byteAt, JS.index.
  cbn [List.length].
  unfold FLAGS.TIME_OFFSET_PRESENT, FLAGS.GLUCOSE_PRESENT,
    FLAGS.STATUS_PRESENT, FLAGS.IS_MMOL.
  destruct (hasFlag 1 (DataView.unsigned f)) eqn:F1;
    destruct (hasFlag 2 (DataView.unsigned f)) eqn:F2;
    destruct (hasFlag 8 (DataView.unsigned f)) eqn:F8;
    destruct (hasFlag 4 (DataView.unsigned f)) eqn:F4;
    intros L; explode rest L;
    simpl; rewrite ?F1, ?F2, ?F4, ?F8; run_parser;
    rewrite ?F1, ?F2, ?F4, ?F8; run_parser; reflexivity.
Qed.

(** C9. For every flags byte, a measurement buffer one byte shorter than
    the length its flags demand makes the parser throw [RangeError], and
    the notification handler then stores no record; a buffer of exactly
    that length parses. *)
Theorem parseGlucoseMeasurement_length (f : byte) (rest : list byte) :
  (DataView.byteLength (f :: rest)
     = requiredLength (DataView.unsigned f) - 1 ->
   parseGlucoseMeasurement pow10 buildTimestamp (f :: rest) = Throw RangeError
   /\ forall self : Session,
        handleNotifications pow10 buildTimestamp self (f :: rest)
        = (self, Throw RangeError))
  /\ (DataView.byteLength (f :: rest) = requiredLength (DataView.unsigned f) ->
      JS.isOk (parseGlucoseMeasurement pow10 buildTimestamp (f :: rest)) = true).
Proof.
  split.
  - intros L. pose proof (parse_one_byte_short f rest L) as P.
    split; [exact P|].
    intros self. now apply handleNotifications_throw.
  - apply parse_exact_length.
Qed.

End Properties.

(** ** The properties on the samples *)

(** C3, as stated, fails: a response with op code 0x06 and operand
    0x0201 is ignored, no event is dispatched and nothing is thrown. *)
Lemma handleRACP_ignores_other_operand :
  handleRACP sessionWithOneRecord racpOtherOperand
    = (sessionWithOneRecord, Ok tt)
  /\ ~ (forall (self : Session DateTime) (value : DataView.t)
             (racpObject : RacpObject),
          readRacpObject value = Ok racpObject ->
          opCode racpObject = 0x06 ->
          operand racpObject <> 0x0101 -> operand racpObject <> 0x0601 ->
          exists e, snd (handleRACP self value) = Throw e).
Proof.
  split; [reflexivity|].
  intros H.
  assert (He : exists e,
             snd (handleRACP sessionWithOneRecord racpOtherOperand) = Throw e).
  { apply (H sessionWithOneRecord racpOtherOperand _ eq_refl);
      vm_compute; first [reflexivity | discriminate]. }
  destruct He as [e He]. discriminate He.
Qed.

Lemma handleRACP_unhandled_responses_witness :
  handleRACP sessionWithOneRecord racpOpCode9
    = (sessionWithOneRecord, Throw (Error "Unrecognized op code"))
  /\ handleRACP sessionWithOneRecord racpOtherOperand
     = (sessionWithOneRecord, Ok tt).
Proof.
  split.
  - apply (proj1 (handleRACP_unhandled_responses
                    sessionWithOneRecord racpOpCode9 _ eq_refl));
      vm_compute; discriminate.
  - apply (proj2 (handleRACP_unhandled_responses
                    sessionWithOneRecord racpOtherOperand _ eq_refl));
      vm_compute; first [reflexivity | discriminate].
Defined.

(** C10, as stated, fails: [getDeltaNumberOfRecords] writes its command
    with the stored measurement still in place. *)
Lemma getDeltaNumberOfRecords_keeps_records :
  List.map seqNum (records sessionWithOneRecord) = [1]
  /\ List.map seqNum (records (getDeltaNumberOfRecords sessionWithOneRecord 1))
     = [1]
  /\ written (getDeltaNumberOfRecords sessionWithOneRecord 1)
     = [[0x04; 0x03; 0x01; 0x01; 0x00]]
  /\ ~ (forall (self : Session DateTime) (n : Z),
          records (getDeltaNumberOfRecords self n) = []
          /\ contextRecords (getDeltaNumberOfRecords self n) = []).
Proof.
  repeat split.
  intros H. destruct (H sessionWithOneRecord 1) as [R _].
  discriminate R.
Qed.

Lemma timestamp_is_base_dateTime_witness :
  parseGlucoseMeasurement samplePow10 sampleTimestamp offsetMeasurement = Ok offsetRecord
  /\ exists dateTime monthByte,
       baseDateTime offsetMeasurement = Some dateTime
       /\ DataView.byteAt offsetMeasurement 5 = Some monthByte
       /\ month dateTime = normalizeMonth monthByte
       /\ (monthByte = 13 -> month dateTime = 1)
       /\ (monthByte <> 13 -> month dateTime = monthByte)
       /\ timestamp offsetRecord = sampleTimestamp dateTime
       /\ (hasFlag FLAGS.TIME_OFFSET_PRESENT (flags offsetRecord) = true ->
           exists ofs,
             DataView.getInt16 offsetMeasurement 10 true = Ok ofs
             /\ payload offsetRecord =
                  Some {| internalTime := sampleTimestamp dateTime;
                          timeOffset := ofs |})
       /\ (hasFlag FLAGS.TIME_OFFSET_PRESENT (flags offsetRecord) = false ->
           payload offsetRecord = None).
Proof.
  split; [reflexivity|].
  apply (timestamp_is_base_dateTime samplePow10 sampleTimestamp
           offsetMeasurement offsetRecord).
  reflexivity.
Defined.

Lemma parseGlucoseMeasurement_length_witness :
  (parseGlucoseMeasurement samplePow10 sampleTimestamp truncatedGlucoseMeasurement
     = Throw RangeError
   /\ forall self : Session DateTime,
        handleNotifications samplePow10 sampleTimestamp self truncatedGlucoseMeasurement
        = (self, Throw RangeError))
  /\ JS.isOk (parseGlucoseMeasurement samplePow10 sampleTimestamp glucoseMeasurement)
     = true.
Proof.
  split.
  - apply (proj1 (parseGlucoseMeasurement_length samplePow10 sampleTimestamp x02
                    [x01; x00; xe3; x07; x06; x0f; x0c; x1e; x00; x64; xb0])).
    reflexivity.
  - apply (proj2 (parseGlucoseMeasurement_length samplePow10 sampleTimestamp x02
                    [x01; x00; xe3; x07; x06; x0f; x0c; x1e; x00; x64; xb0;
                     x1a])).
    reflexivity.
Defined.

(** * Further properties *)

(** ** The SFLOAT decoder, continued *)

Lemma testbit_11_mod (v : Z) :
  Z.testbit v 11 = true <-> 2048 <= v mod 2 ^ 12.
Proof.
  pose proof (Z.testbit_spec' v 11 ltac:(lia)) as S.
  change (2 ^ 11) with 2048 in S. change (2 ^ 12) with 4096.
  destruct (Z.testbit v 11); cbn [Z.b2z] in S;
    (split; intros E);
    first [ discriminate E
          | reflexivity
          | revert S; Z.div_mod_to_equations; lia
          | exfalso; revert S E; Z.div_mod_to_equations; lia ].
Qed.

Lemma sfloat_reserved_sentinel (v : Z) (sentinel : number) :
  sfloat_reserved v = Some sentinel ->
  sentinel = NaN \/ sentinel = POSITIVE_INFINITY
  \/ sentinel = NEGATIVE_INFINITY.
Proof.
  unfold sfloat_reserved.
  repeat match goal with
    | |- (if ?c then _ else _) = _ -> _ => destruct c
    end;
    intros [= <-]; auto.
Qed.

Section MoreDecoderProperties.

Variable pow10 : Z -> number.

(** With an exponent that is not negative in mmol/L, the same pattern
    read as mg/dL is a hundred times its reading as mmol/L, in binary64
    as in the reals: both readings are integers that a binary64 holds. *)
Theorem getSFLOAT_mgdl_100_mmol (v : Z) :
  accuratePow10 pow10 ->
  0 <= v < 0x10000 -> sfloat_reserved v = None ->
  -3 <= twos_complement 4 (v / 2 ^ 12) ->
  exists a b,
    getSFLOAT pow10 v "mg/dL" = Ok a
    /\ getSFLOAT pow10 v "mmol/L" = Ok b
    /\ a = JS.multiply (JS.ofZ 100) b.
Proof.
  intros A Hv R N.
  destruct (sfloat_fields_range v MmolL Hv) as (M & E & _).
  do 2 eexists.
  split; [apply (getSFLOAT_numeric16 pow10 v MgDl Hv R)|].
  split; [apply (getSFLOAT_numeric16 pow10 v MmolL Hv R)|].
  cbn [unit_bias].
  set (m := twos_complement 12 (v mod 2 ^ 12)) in *.
  set (n := twos_complement 4 (v / 2 ^ 12)) in *.
  rewrite (accuratePow10_exact pow10 (n + 5) A) by lia.
  rewrite (accuratePow10_exact pow10 (n + 3) A) by lia.
  replace (n + 5) with (n + 3 + 2) by lia.
  symmetry. apply sameNumber_eq, hundred_checked; lia.
Qed.

(** The decoded number is zero exactly when the low twelve bits are zero
    and negative exactly when bit 11 is set, whatever the exponent and
    the unit. *)
Theorem getSFLOAT_sign (v : Z) (u : Unit) :
  accuratePow10 pow10 ->
  0 <= v < 0x10000 -> sfloat_reserved v = None ->
  exists r q,
    getSFLOAT pow10 v (unit_name u) = Ok r
    /\ exactValue r = Some q
    /\ ((q == 0)%Q <-> Z.land v 0x0FFF = 0)
    /\ ((q < 0)%Q <-> Z.testbit v 11 = true).
Proof.
  intros A Hv R.
  destruct (getSFLOAT_value pow10 v u A Hv R)
    as (r & q & G & V & _ & _ & Z0 & N0 & _).
  exists r, q. split; [exact G|]. split; [exact V|].
  rewrite land_0FFF_mod, testbit_11_mod, Z0, N0.
  pose proof (Z.mod_pos_bound v (2 ^ 12) ltac:(lia)) as M.
  set (x := v mod 2 ^ 12) in *.
  change (2 ^ 12) with 4096 in M.
  assert (C : twos_complement 12 x = if x >=? 2048 then x - 4096 else x)
    by reflexivity.
  rewrite C.
  destruct (x >=? 2048) eqn:S; lia.
Qed.

(** A decoded number lies between -2048 and 2047 times ten to the
    twelfth: [getSFLOAT] never leaves the range in which a binary64 holds
    every integer. *)
Theorem getSFLOAT_bounds (v : Z) (u : Unit) :
  accuratePow10 pow10 ->
  0 <= v < 0x10000 -> sfloat_reserved v = None ->
  exists r q,
    getSFLOAT pow10 v (unit_name u) = Ok r
    /\ exactValue r = Some q
    /\ (- (2048 * 10 ^ 12) <= q <= 2047 * 10 ^ 12)%Q
    /\ (2048 * 10 ^ 12 < 2 ^ 53)%Q.
Proof.
  intros A Hv R.
  destruct (getSFLOAT_value pow10 v u A Hv R)
    as (r & q & G & V & _ & _ & _ & _ & B).
  exists r, q. split; [exact G|]. split; [exact V|].
  split; [exact B|reflexivity].
Qed.

(** Whatever the unit selector, when [getSFLOAT] returns on a 16-bit
    value, it returns a sentinel for the five reserved patterns, the one
    of the pattern, and a finite number for every other value: no other
    value, whatever its mantissa bits, decodes to NaN or an infinity. *)
Theorem getSFLOAT_finite_unless_reserved (v : Z) (units : string)
    (n : number) :
  accuratePow10 pow10 -> 0 <= v < 0x10000 ->
  getSFLOAT pow10 v units = Ok n ->
  match n with
  | S754_nan | S754_infinity _ => sfloat_reserved v = Some n
  | S754_zero _ | S754_finite _ _ _ => sfloat_reserved v = None
  end.
Proof.
  intros A Hv H.
  destruct (sfloat_reserved v) as [sentinel|] eqn:R.
  - rewrite (getSFLOAT_reserved pow10 _ _ _ R) in H. injection H as <-.
    destruct (sfloat_reserved_sentinel _ _ R) as [->|[->| ->]]; reflexivity.
  - assert (F : forall u, getSFLOAT pow10 v (unit_name u) = Ok n ->
                  exists q, exactValue n = Some q).
    { intros u U.
      destruct (getSFLOAT_value pow10 v u A Hv R) as (r & q & G & V & _).
      rewrite G in U. injection U as <-. now exists q. }
    assert (V : exists q, exactValue n = Some q).
    { destruct (String.eqb_spec units "mg/dL") as [->|N1];
        [exact (F MgDl H)|].
      destruct (String.eqb_spec units "mmol/L") as [->|N2];
        [exact (F MmolL H)|].
      rewrite (getSFLOAT_numeric pow10 _ _ R) in H.
      apply String.eqb_neq in N1, N2. rewrite N1, N2 in H.
      discriminate H. }
    destruct V as [q V].
    destruct n; try discriminate V; reflexivity.
Qed.

End MoreDecoderProperties.

Lemma getSFLOAT_mgdl_100_mmol_witness :
  exists a b,
    getSFLOAT samplePow10 0xF0C8 "mg/dL" = Ok a
    /\ getSFLOAT samplePow10 0xF0C8 "mmol/L" = Ok b
    /\ a = JS.multiply (JS.ofZ 100) b.
Proof.
  apply (getSFLOAT_mgdl_100_mmol samplePow10 0xF0C8 samplePow10_accurate);
    [lia|reflexivity|vm_compute; discriminate].
Defined.

(** With a negative exponent in mmol/L the two readings need not agree:
    0xC029 is 410 in mg/dL and 4.1000000000000005 in mmol/L, a hundred
    times which is 410.00000000000006. *)
Lemma getSFLOAT_mgdl_not_100_mmol :
  getSFLOAT samplePow10 0xC029 "mg/dL" = Ok (JS.ofZ 410)
  /\ exists b,
       getSFLOAT samplePow10 0xC029 "mmol/L" = Ok b
       /\ exactValue b = Some (4616189618054759 # 2 ^ 50)%Q
       /\ JS.multiply (JS.ofZ 100) b <> JS.ofZ 410.
Proof.
  split; [vm_compute; reflexivity|].
  eexists. split; [vm_compute; reflexivity|].
  split; [vm_compute; reflexivity|].
  vm_compute. discriminate.
Qed.

Lemma getSFLOAT_sign_witness :
  exists r q,
    getSFLOAT samplePow10 0x0FFE (unit_name MgDl) = Ok r
    /\ exactValue r = Some q
    /\ ((q == 0)%Q <-> Z.land 0x0FFE 0x0FFF = 0)
    /\ ((q < 0)%Q <-> Z.testbit 0x0FFE 11 = true).
Proof.
  apply (getSFLOAT_sign samplePow10 0x0FFE MgDl samplePow10_accurate);
    [lia|reflexivity].
Defined.

Lemma getSFLOAT_bounds_witness :
  exists r q,
    getSFLOAT samplePow10 0x7800 (unit_name MgDl) = Ok r
    /\ exactValue r = Some q
    /\ (- (2048 * 10 ^ 12) <= q <= 2047 * 10 ^ 12)%Q
    /\ (2048 * 10 ^ 12 < 2 ^ 53)%Q.
Proof.
  apply (getSFLOAT_bounds samplePow10 0x7800 MgDl samplePow10_accurate);
    [lia|reflexivity].
Defined.

Lemma getSFLOAT_finite_unless_reserved_witness :
  sfloat_reserved 0x17FF = None
  /\ sfloat_reserved 0x07FE = Some POSITIVE_INFINITY.
Proof.
  split.
  - apply (getSFLOAT_finite_unless_reserved samplePow10 0x17FF "mg/dL"
             (JS.ofZ 2047000000) samplePow10_accurate); [lia|].
    vm_compute. reflexivity.
  - apply (getSFLOAT_finite_unless_reserved samplePow10 0x07FE "mg/dL"
             POSITIVE_INFINITY samplePow10_accurate); [lia|].
    reflexivity.
Defined.

(** ** The measurement record parser, continued *)

(** Splits the list [l] into the shapes the bound [H] on its length
    allows. *)
Ltac peel_bytes l H :=
  repeat (destruct l as [|? l]; cbn [List.length] in H; try (exfalso; lia)).

Section ParserProperties.

Variable pow10 : Z -> number.
Context {Timestamp : Type}.
Variable buildTimestamp : DateTime -> Timestamp.

#[local] Arguments DataView.unsigned : simpl never.
#[local] Arguments hasFlag : simpl never.
#[local] Arguments getSFLOAT : simpl never.
#[local] Arguments JS.logical_and : simpl never.

(** Runs a parser on a buffer whose leading bytes and flags are known. *)
Ltac eval_parser :=
  repeat
    (simpl;
     try match goal with
       | |- context [getSFLOAT pow10 ?raw "mg/dL"] =>
           let n := fresh "n" in
           let N := fresh "N" in
           destruct (getSFLOAT_unit_returns pow10 raw MgDl) as [n N];
           cbn [unit_name] in N; rewrite N; clear N
       | |- context [getSFLOAT pow10 ?raw "mmol/L"] =>
           let n := fresh "n" in
           let N := fresh "N" in
           destruct (getSFLOAT_unit_returns pow10 raw MmolL) as [n N];
           cbn [unit_name] in N; rewrite N; clear N
       end).

Ltac open_parser :=
  unfold DataView.byteLength, requiredLength, parseGlucoseMeasurement;
  unfold DataView.getInt16, DataView.getUint16, DataView.getUint8,
    DataView.byteAt, JS.index;
  unfold FLAGS.TIME_OFFSET_PRESENT, FLAGS.GLUCOSE_PRESENT,
    FLAGS.STATUS_PRESENT, FLAGS.IS_MMOL.

Lemma parse_short (f : byte) (rest : list byte) :
  DataView.byteLength (f :: rest) < requiredLength (DataView.unsigned f) ->
  parseGlucoseMeasurement pow10 buildTimestamp (f :: rest) = Throw RangeError.
Proof.
  open_parser.
  destruct (hasFlag 1 (DataView.unsigned f)) eqn:F1;
    destruct (hasFlag 2 (DataView.unsigned f)) eqn:F2;
    destruct (hasFlag 8 (DataView.unsigned f)) eqn:F8;
    destruct (hasFlag 4 (DataView.unsigned f)) eqn:F4;
    intros L; cbn [List.length] in L; peel_bytes rest L;
    simpl; rewrite ?F1, ?F2, ?F4, ?F8; eval_parser;
    rewrite ?F1, ?F2, ?F4, ?F8; eval_parser; reflexivity.
Qed.

Lemma parse_long (f : byte) (rest : list byte) :
  requiredLength (DataView.unsigned f) <= DataView.byteLength (f :: rest) ->
  JS.isOk (parseGlucoseMeasurement pow10 buildTimestamp (f :: rest)) = true.
Proof.
  open_parser.
  destruct (hasFlag 1 (DataView.unsigned f)) eqn:F1;
    destruct (hasFlag 2 (DataView.unsigned f)) eqn:F2;
    destruct (hasFlag 8 (DataView.unsigned f)) eqn:F8;
    destruct (hasFlag 4 (DataView.unsigned f)) eqn:F4;
    intros L; cbn [List.length] in L;
    do 16 (try (destruct rest as [|? rest];
                cbn [List.length] in L; [exfalso; lia|]));
    clear L;
    simpl; rewrite ?F1, ?F2, ?F4, ?F8; eval_parser;
    rewrite ?F1, ?F2, ?F4, ?F8; eval_parser; reflexivity.
Qed.

(** The parser returns a record exactly when the buffer has the length
    its flags byte demands, and throws [RangeError] when it is shorter or
    empty: it throws nothing else, the units it passes to [getSFLOAT]
    being always legal. *)
Theorem parseGlucoseMeasurement_returns_iff (result : DataView.t) :
  match result with
  | [] => parseGlucoseMeasurement pow10 buildTimestamp result = Throw RangeError
  | f :: _ =>
      if requiredLength (DataView.unsigned f) <=? DataView.byteLength result
      then JS.isOk (parseGlucoseMeasurement pow10 buildTimestamp result) = true
      else parseGlucoseMeasurement pow10 buildTimestamp result = Throw RangeError
  end.
Proof.
  destruct result as [|f rest]; [reflexivity|].
  destruct (Z.leb_spec (requiredLength (DataView.unsigned f))
              (DataView.byteLength (f :: rest))) as [L|L].
  - now apply parse_long.
  - now apply parse_short.
Qed.

Lemma parse_Ok_length (result : DataView.t)
    (record : MeasurementRecord Timestamp) :
  parseGlucoseMeasurement pow10 buildTimestamp result = Ok record ->
  exists f rest,
    result = f :: rest
    /\ requiredLength (DataView.unsigned f) <= DataView.byteLength result.
Proof.
  intros H.
  destruct result as [|f rest]; [discriminate H|].
  exists f, rest. split; [reflexivity|].
  destruct (Z.leb_spec (requiredLength (DataView.unsigned f))
              (DataView.byteLength (f :: rest))) as [L|L]; [exact L|].
  rewrite (parse_short f rest L) in H. discriminate H.
Qed.

(** Bytes after the ones the flags demand are not looked at: a buffer
    that parses gives the same record with anything appended. *)
Theorem parseGlucoseMeasurement_ignores_trailing_bytes
    (result extra : DataView.t) (record : MeasurementRecord Timestamp) :
  parseGlucoseMeasurement pow10 buildTimestamp result = Ok record ->
  parseGlucoseMeasurement pow10 buildTimestamp (result ++ extra) = Ok record.
Proof.
  intros H.
  destruct (parse_Ok_length result record H) as (f & rest & -> & L).
  rewrite <- H. clear H record. revert L.
  open_parser.
  destruct (hasFlag 1 (DataView.unsigned f)) eqn:F1;
    destruct (hasFlag 2 (DataView.unsigned f)) eqn:F2;
    destruct (hasFlag 8 (DataView.unsigned f)) eqn:F8;
    destruct (hasFlag 4 (DataView.unsigned f)) eqn:F4;
    intros L; cbn [List.length] in L;
    do 16 (try (destruct rest as [|? rest];
                cbn [List.length] in L; [exfalso; lia|]));
    clear L;
    simpl; rewrite ?F1, ?F2, ?F4, ?F8; eval_parser;
    rewrite ?F1, ?F2, ?F4, ?F8; eval_parser; reflexivity.
Qed.

Ltac reads_to_bytes :=
  repeat match goal with
    | H : DataView.getUint8 _ _ = Ok _ |- _ => apply getUint8_Ok_inv in H
    | H : DataView.getUint16 _ _ true = Ok _ |- _ =>
        apply getUint16_Ok_inv in H;
        destruct H as (? & ? & H & ? & ?)
    | H : DataView.getInt16 _ _ true = Ok _ |- _ =>
        unfold DataView.getInt16 in H; bind_inv H; injection H as <-
    end.

(** Splits the optional groups of a parse that returned. *)
Ltac split_groups :=
  repeat match goal with
    | E : (if hasFlag ?F ?f then _ else _) = Ok _ |- _ =>
        destruct (hasFlag F f) eqn:?;
        [bind_inv E|]; injection E; clear E; intros; subst
    end.

(** Which properties a returned record has is decided by its flags
    alone: the glucose group ([units], [value], [type], [location]) comes
    with the glucose flag, whole or not at all, the unit being the one
    the units flag names; [status] needs the glucose flag and the status
    flag both; [payload] comes with the time-offset flag; [hasContext] is
    the context flag. *)
Theorem parseGlucoseMeasurement_presence (result : DataView.t)
    (record : MeasurementRecord Timestamp) :
  parseGlucoseMeasurement pow10 buildTimestamp result = Ok record ->
  let has := fun flag => hasFlag flag (flags record) in
  DataView.byteAt result 0 = Some (flags record)
  /\ units record =
       (if has FLAGS.GLUCOSE_PRESENT
        then Some (if has FLAGS.IS_MMOL then "mmol/L" else "mg/dL")
        else None)
  /\ (value record = None <-> has FLAGS.GLUCOSE_PRESENT = false)
  /\ (type record = None <-> has FLAGS.GLUCOSE_PRESENT = false)
  /\ (location record = None <-> has FLAGS.GLUCOSE_PRESENT = false)
  /\ (status record = None <->
      has FLAGS.GLUCOSE_PRESENT && has FLAGS.STATUS_PRESENT = false)
  /\ (payload record = None <-> has FLAGS.TIME_OFFSET_PRESENT = false)
  /\ hasContext record = has FLAGS.CONTEXT_INFO.
Proof.
  intros H. unfold parseGlucoseMeasurement in H. bind_inv H.
  injection H as <-.
  cbn [flags units value type location status payload hasContext].
  split_groups;
    cbn [g_units g_value g_type g_location g_status no_glucose];
    reads_to_bytes;
    repeat match goal with
      | F : hasFlag _ _ = _ |- _ => rewrite F
      end;
    cbn [andb];
    repeat split; try assumption; try reflexivity;
    intros; try discriminate.
Qed.

Lemma Some_eq_inv {A : Type} (a b : A) : Some a = Some b -> a = b.
Proof. now intros [= ->]. Qed.

(** The numbers of a returned record are in the range of their field:
    a byte of flags, a 16-bit sequence number, a 4-bit type, a 16-bit
    status, and a time offset that is a signed 16-bit number. *)
Theorem parseGlucoseMeasurement_ranges (result : DataView.t)
    (record : MeasurementRecord Timestamp) :
  parseGlucoseMeasurement pow10 buildTimestamp result = Ok record ->
  0 <= flags record < 0x100
  /\ 0 <= seqNum record < 0x10000
  /\ (forall t, type record = Some t -> 0 <= t < 16)
  /\ (forall s, status record = Some s -> 0 <= s < 0x10000)
  /\ (forall p, payload record = Some p ->
        -0x8000 <= timeOffset p < 0x8000).
Proof.
  intros H. unfold parseGlucoseMeasurement in H. bind_inv H.
  injection H as <-.
  cbn [flags seqNum type status payload].
  split_groups;
    cbn [g_type g_status no_glucose];
    reads_to_bytes; subst;
    repeat match goal with
      | B : DataView.byteAt _ _ = Some _ |- _ =>
          apply byteAt_range in B
      end;
    (split; [lia|]); (split; [lia|]); (split; [|split]);
    intros ? Q; try discriminate Q; apply Some_eq_inv in Q; subst;
    cbn [timeOffset]; unfold DataView.toInt16;
    try (rewrite Z.shiftr_div_pow2 by lia; change (2 ^ 4) with 16);
    repeat match goal with
      | |- context [if ?c then _ else _] => destruct c eqn:?
      end;
    Z.div_mod_to_equations; lia.
Qed.

End ParserProperties.

Section LayoutProperties.

Variable pow10 : Z -> number.
Context {Timestamp : Type}.
Variable buildTimestamp : DateTime -> Timestamp.

#[local] Arguments DataView.getUint8 : simpl never.
#[local] Arguments DataView.getUint16 : simpl never.
#[local] Arguments DataView.getInt16 : simpl never.
#[local] Arguments hasFlag : simpl never.
#[local] Arguments getSFLOAT : simpl never.
#[local] Arguments Z.shiftr : simpl never.
#[local] Arguments JS.logical_and : simpl never.

(** The glucose group of a returned record lies right after the base
    date-time, two bytes further when the time offset is present: the
    SFLOAT at offset 10 or 12, decoded in the unit of the units flag, the
    type in the high nibble of the byte after it, and the status, when
    flagged, in the two bytes after that. *)
Theorem parseGlucoseMeasurement_layout (result : DataView.t)
    (record : MeasurementRecord Timestamp) :
  parseGlucoseMeasurement pow10 buildTimestamp result = Ok record ->
  hasFlag FLAGS.GLUCOSE_PRESENT (flags record) = true ->
  let o :=
    if hasFlag FLAGS.TIME_OFFSET_PRESENT (flags record) then 2 else 0 in
  let unit :=
    if hasFlag FLAGS.IS_MMOL (flags record) then "mmol/L" else "mg/dL" in
  exists raw b n,
    DataView.getUint16 result 1 true = Ok (seqNum record)
    /\ DataView.getUint16 result (10 + o) true = Ok raw
    /\ getSFLOAT pow10 raw unit = Ok n
    /\ value record = Some n
    /\ DataView.getUint8 result (12 + o) = Ok b
    /\ type record = Some (b / 16)
    /\ (hasFlag FLAGS.STATUS_PRESENT (flags record) = true ->
        exists s,
          DataView.getUint16 result (13 + o) true = Ok s
          /\ status record = Some s).
Proof.
  intros H. unfold parseGlucoseMeasurement in H. bind_inv H.
  injection H as <-.
  cbn [flags seqNum value type status].
  intros G.
  repeat match goal with
    | E : (if hasFlag ?F ?f then _ else _) = Ok _ |- _ =>
        destruct (hasFlag F f) eqn:?;
        [bind_inv E|]; injection E; clear E; intros; subst
    end;
    try discriminate G;
    cbn [g_value g_type g_status];
    repeat match goal with
      | F : hasFlag _ _ = _ |- _ => rewrite ?F in *; clear F
      end;
    simpl in *;
    match goal with
    | R : DataView.getUint16 result ?j true = Ok ?raw,
      S : getSFLOAT pow10 ?raw _ = Ok ?n,
      B : DataView.getUint8 result ?i = Ok ?b |- context [Z.shiftr ?b 4] =>
        exists raw, b, n
    end;
    rewrite Z.shiftr_div_pow2 by lia; change (2 ^ 4) with 16;
    repeat split; try assumption; try reflexivity;
    intros; try discriminate; eauto.
Qed.

End LayoutProperties.

(** ** The context record parser, continued *)

Section ContextProperties.

#[local] Arguments DataView.unsigned : simpl never.
#[local] Arguments hasFlag : simpl never.
#[local] Arguments DataView.byteAt : simpl never.

Ltac open_context_parser :=
  unfold DataView.byteLength, contextRequiredLength, parseMeasurementContext,
    parseMeasurementContext_cursor;
  unfold DataView.getInt16, DataView.getUint16, DataView.getUint8,
    DataView.byteAt, JS.index;
  unfold CONTEXT_FLAGS.EXTENDED, CONTEXT_FLAGS.CARBS, CONTEXT_FLAGS.MEAL.

Lemma context_short (f : byte) (rest : list byte) :
  DataView.byteLength (f :: rest) < contextRequiredLength (DataView.unsigned f) ->
  parseMeasurementContext (f :: rest) = Throw RangeError.
Proof.
  open_context_parser.
  destruct (hasFlag 128 (DataView.unsigned f)) eqn:FE;
    destruct (hasFlag 1 (DataView.unsigned f)) eqn:FC;
    destruct (hasFlag 2 (DataView.unsigned f)) eqn:FM;
    intros L; cbn [List.length] in L; peel_bytes rest L;
    simpl; rewrite ?FE, ?FC, ?FM; simpl; rewrite ?FE, ?FC, ?FM;
    reflexivity.
Qed.

Lemma context_long (f : byte) (rest : list byte) :
  contextRequiredLength (DataView.unsigned f) <= DataView.byteLength (f :: rest) ->
  JS.isOk (parseMeasurementContext (f :: rest)) = true.
Proof.
  open_context_parser.
  destruct (hasFlag 128 (DataView.unsigned f)) eqn:FE;
    destruct (hasFlag 1 (DataView.unsigned f)) eqn:FC;
    destruct (hasFlag 2 (DataView.unsigned f)) eqn:FM;
    intros L; cbn [List.length] in L;
    do 6 (try (destruct rest as [|? rest];
               cbn [List.length] in L; [exfalso; lia|]));
    clear L;
    simpl; rewrite ?FE, ?FC, ?FM; simpl; rewrite ?FE, ?FC, ?FM;
    reflexivity.
Qed.

(** The context parser returns a record exactly when the buffer reaches
    as far as its reads go, and throws [RangeError] when it is shorter or
    empty.  With the carbohydrate flag the meal flag asks for no byte of
    its own. *)
Theorem parseMeasurementContext_returns_iff (result : DataView.t) :
  match result with
  | [] => parseMeasurementContext result = Throw RangeError
  | f :: _ =>
      if contextRequiredLength (DataView.unsigned f)
         <=? DataView.byteLength result
      then JS.isOk (parseMeasurementContext result) = true
      else parseMeasurementContext result = Throw RangeError
  end.
Proof.
  destruct result as [|f rest]; [reflexivity|].
  destruct (Z.leb_spec (contextRequiredLength (DataView.unsigned f))
              (DataView.byteLength (f :: rest))) as [L|L].
  - now apply context_long.
  - now apply context_short.
Qed.

Lemma context_Ok_length (result : DataView.t) (record : ContextRecord.t) :
  parseMeasurementContext result = Ok record ->
  exists f rest,
    result = f :: rest
    /\ contextRequiredLength (DataView.unsigned f)
       <= DataView.byteLength result.
Proof.
  intros H.
  destruct result as [|f rest]; [discriminate H|].
  exists f, rest. split; [reflexivity|].
  destruct (Z.leb_spec (contextRequiredLength (DataView.unsigned f))
              (DataView.byteLength (f :: rest))) as [L|L]; [exact L|].
  rewrite (context_short f rest L) in H. discriminate H.
Qed.

(** A context buffer that parses gives the same record with anything
    appended. *)
Theorem parseMeasurementContext_ignores_trailing_bytes
    (result extra : DataView.t) (record : ContextRecord.t) :
  parseMeasurementContext result = Ok record ->
  parseMeasurementContext (result ++ extra) = Ok record.
Proof.
  intros H.
  destruct (context_Ok_length result record H) as (f & rest & -> & L).
  rewrite <- H. clear H record. revert L.
  open_context_parser.
  destruct (hasFlag 128 (DataView.unsigned f)) eqn:FE;
    destruct (hasFlag 1 (DataView.unsigned f)) eqn:FC;
    destruct (hasFlag 2 (DataView.unsigned f)) eqn:FM;
    intros L; cbn [List.length] in L;
    do 6 (try (destruct rest as [|? rest];
               cbn [List.length] in L; [exfalso; lia|]));
    clear L;
    simpl; rewrite ?FE, ?FC, ?FM; simpl; rewrite ?FE, ?FC, ?FM;
    reflexivity.
Qed.

(** Which properties a context record has is decided by its flags; the
    extended flags are byte 3, the carbohydrate id the byte after them,
    and without the carbohydrate group the meal code is the byte after the
    extended flags, where it lies. *)
Theorem parseMeasurementContext_fields (result : DataView.t)
    (record : ContextRecord.t) :
  parseMeasurementContext result = Ok record ->
  let has := fun flag => hasFlag flag (ContextRecord.flags record) in
  let start := context_after_extended (ContextRecord.flags record) in
  DataView.byteAt result 0 = Some (ContextRecord.flags record)
  /\ ContextRecord.extended record =
       (if has CONTEXT_FLAGS.EXTENDED then DataView.byteAt result 3 else None)
  /\ ContextRecord.carbID record =
       (if has CONTEXT_FLAGS.CARBS then DataView.byteAt result start else None)
  /\ (ContextRecord.carbUnits record = None <-> has CONTEXT_FLAGS.CARBS = false)
  /\ (ContextRecord.meal record = None <-> has CONTEXT_FLAGS.MEAL = false)
  /\ (has CONTEXT_FLAGS.CARBS = false ->
      ContextRecord.meal record =
        (if has CONTEXT_FLAGS.MEAL
         then DataView.byteAt result
                (context_meal_position (ContextRecord.flags record))
         else None)).
Proof.
  intros H. unfold parseMeasurementContext in H. bind_inv H.
  injection H as <-.
  match goal with
  | P : parseMeasurementContext_cursor result = Ok ?p |- _ =>
      destruct p as [record cursor];
      unfold parseMeasurementContext_cursor in P; bind_inv P;
      injection P as <- <-
  end.
  cbn [fst ContextRecord.flags ContextRecord.extended ContextRecord.carbID
         ContextRecord.carbUnits ContextRecord.meal].
  unfold context_meal_position, context_after_extended.
  repeat match goal with
    | E : (if hasFlag ?F ?f then _ else _) = Ok _ |- _ =>
        destruct (hasFlag F f) eqn:?;
        [bind_inv E|]; injection E; clear E; intros; subst
    end;
    repeat match goal with
      | H : DataView.getUint8 _ _ = Ok _ |- _ => apply getUint8_Ok_inv in H
      | H : DataView.getUint16 _ _ true = Ok _ |- _ =>
          apply getUint16_Ok_inv in H;
          destruct H as (? & ? & H & ? & ?)
      end;
    repeat match goal with
      | F : hasFlag _ _ = _ |- _ => rewrite F
      end;
    simpl in *;
    repeat split; intros; try discriminate; try congruence.
Qed.

End ContextProperties.

(** ** Runs of notifications and the RACP handler *)

Section RunProperties.

Variable pow10 : Z -> number.
Context {Timestamp : Type}.
Variable buildTimestamp : DateTime -> Timestamp.

Local Abbreviation Session := (Session Timestamp).
Local Abbreviation MeasurementRecord := (MeasurementRecord Timestamp).

Lemma session_eta (self : Session) :
  {| records := records self; contextRecords := contextRecords self;
     dispatched := dispatched self; written := written self |} = self.
Proof. now destruct self. Qed.

(** What one measurement notification does to the session, whether it
    parses or not. *)
Lemma handleNotifications_session (self : Session) (value : DataView.t) :
  fst (handleNotifications pow10 buildTimestamp self value) =
    set_records self
      (List.fold_left appendMeasurement
         (parsedRecords pow10 buildTimestamp [value]) (records self)).
Proof.
  unfold handleNotifications, parsedRecords. cbn [List.flat_map].
  destruct (parseGlucoseMeasurement pow10 buildTimestamp value) as [parsed|e].
  - cbn [List.app List.fold_left]. unfold appendMeasurement, strict_neq.
    rewrite lastSeqNum_latest.
    destruct (List.rev (records self)) as [|latest older]; [reflexivity|].
    rewrite Z.eqb_sym.
    destruct (seqNum latest =? seqNum parsed); cbn [negb fst];
      [|reflexivity].
    unfold set_records. now rewrite session_eta.
  - cbn [List.app List.fold_left fst]. unfold set_records.
    now rewrite session_eta.
Qed.

Lemma handleContextNotifications_session (self : Session)
    (value : DataView.t) :
  fst (handleContextNotifications self value) =
    set_contextRecords self
      (contextRecords self
       ++ parsedContexts [ContextValue value]).
Proof.
  unfold handleContextNotifications, parsedContexts. cbn [List.flat_map].
  destruct (parseMeasurementContext value) as [parsed|e]; cbn [fst].
  - now rewrite app_nil_r.
  - rewrite !app_nil_r. unfold set_contextRecords. now rewrite session_eta.
Qed.

Lemma parsedRecords_cons (value : DataView.t) (values : list DataView.t) :
  parsedRecords pow10 buildTimestamp (value :: values)
  = parsedRecords pow10 buildTimestamp [value]
    ++ parsedRecords pow10 buildTimestamp values.
Proof.
  unfold parsedRecords. cbn [List.flat_map]. now rewrite app_nil_r.
Qed.

Lemma parsedContexts_cons (n : Notification) (ns : list Notification) :
  parsedContexts (n :: ns) = parsedContexts [n] ++ parsedContexts ns.
Proof.
  unfold parsedContexts. cbn [List.flat_map]. now rewrite app_nil_r.
Qed.

(** One notification, on each part of the session. *)
Lemma deliver_session (self : Session) (n : Notification) :
  records (deliver pow10 buildTimestamp self n)
  = List.fold_left appendMeasurement
      (parsedRecords pow10 buildTimestamp (measurementValues [n])) (records self)
  /\ contextRecords (deliver pow10 buildTimestamp self n)
     = contextRecords self ++ parsedContexts [n]
  /\ dispatched (deliver pow10 buildTimestamp self n) = dispatched self
  /\ written (deliver pow10 buildTimestamp self n) = written self.
Proof.
  destruct n as [value|value]; cbn [deliver].
  - rewrite handleNotifications_session.
    cbn [set_records records contextRecords dispatched written].
    repeat split. change (parsedContexts [MeasurementValue value]) with
      (@nil ContextRecord.t). now rewrite app_nil_r.
  - rewrite handleContextNotifications_session.
    cbn [set_contextRecords records contextRecords dispatched written].
    now repeat split.
Qed.

Lemma measurementValues_cons (n : Notification) (ns : list Notification) :
  measurementValues (n :: ns) = measurementValues [n] ++ measurementValues ns.
Proof.
  unfold measurementValues. cbn [List.flat_map]. now rewrite app_nil_r.
Qed.

Lemma parsedRecords_app (values values' : list DataView.t) :
  parsedRecords pow10 buildTimestamp (values ++ values')
  = parsedRecords pow10 buildTimestamp values
    ++ parsedRecords pow10 buildTimestamp values'.
Proof. unfold parsedRecords. apply flat_map_app. Qed.

(** The two record arrays after a run of notifications. *)
Lemma deliverAll_fold (ns : list Notification) :
  forall self : Session,
    records (deliverAll pow10 buildTimestamp self ns)
    = List.fold_left appendMeasurement
        (parsedRecords pow10 buildTimestamp (measurementValues ns)) (records self)
    /\ contextRecords (deliverAll pow10 buildTimestamp self ns)
       = contextRecords self ++ parsedContexts ns.
Proof.
  unfold deliverAll.
  induction ns as [|n ns IH]; intros self.
  - cbn. now rewrite app_nil_r.
  - cbn [List.fold_left].
    destruct (IH (deliver pow10 buildTimestamp self n)) as (R & C).
    destruct (deliver_session self n) as (R1 & C1 & _).
    rewrite R, C, R1, C1. clear IH R C R1 C1.
    rewrite (measurementValues_cons n ns), parsedRecords_app, fold_left_app.
    rewrite (parsedContexts_cons n ns), <- app_assoc.
    now split.
Qed.

(** The two logs after a run of notifications. *)
Lemma deliverAll_logs (ns : list Notification) :
  forall self : Session,
    dispatched (deliverAll pow10 buildTimestamp self ns) = dispatched self
    /\ written (deliverAll pow10 buildTimestamp self ns) = written self.
Proof.
  unfold deliverAll.
  induction ns as [|n ns IH]; intros self; [now split|].
  cbn [List.fold_left].
  destruct (IH (deliver pow10 buildTimestamp self n)) as (D & W).
  destruct (deliver_session self n) as (_ & _ & D1 & W1).
  rewrite D, W, D1, W1. now split.
Qed.

(** Over any interleaving of measurement and context notifications, the
    measurement records are folded in by the store's rule and every
    context record that parses is appended, in arrival order; nothing is
    dispatched and nothing written. *)
Theorem deliverAll_session (ns : list Notification) :
  forall self : Session,
    records (deliverAll pow10 buildTimestamp self ns)
    = List.fold_left appendMeasurement
        (parsedRecords pow10 buildTimestamp (measurementValues ns)) (records self)
    /\ contextRecords (deliverAll pow10 buildTimestamp self ns)
       = contextRecords self ++ parsedContexts ns
    /\ dispatched (deliverAll pow10 buildTimestamp self ns) = dispatched self
    /\ written (deliverAll pow10 buildTimestamp self ns) = written self.
Proof.
  intros self.
  destruct (deliverAll_fold ns self) as (R & C).
  destruct (deliverAll_logs ns self) as (D & W).
  split; [exact R|]. split; [exact C|]. split; [exact D|exact W].
Qed.

Lemma fold_appendMeasurement_from (l : list MeasurementRecord) :
  forall (s : list MeasurementRecord) (x : MeasurementRecord),
    List.fold_left appendMeasurement l (s ++ [x])
    = s ++ x :: collapseFrom (seqNum x) l.
Proof.
  induction l as [|r l IH]; intros s x; [reflexivity|].
  cbn [List.fold_left collapseFrom].
  unfold appendMeasurement at 2. rewrite rev_unit, (Z.eqb_sym (seqNum r)).
  destruct (seqNum x =? seqNum r).
  - apply IH.
  - rewrite IH, <- app_assoc. reflexivity.
Qed.

Lemma fold_appendMeasurement_runs (l : list MeasurementRecord) :
  List.fold_left appendMeasurement l [] = collapseRuns l.
Proof.
  destruct l as [|r l]; [reflexivity|].
  cbn [List.fold_left collapseRuns].
  change (appendMeasurement [] r) with ([] ++ [r]).
  apply fold_appendMeasurement_from.
Qed.

(** A store that is empty keeps, of every run of consecutive parsed
    records with one sequence number, the first record and drops the
    rest, whatever context notifications arrive in between. *)
Theorem records_first_of_each_run (self : Session) (ns : list Notification) :
  records self = [] ->
  records (deliverAll pow10 buildTimestamp self ns)
  = collapseRuns (parsedRecords pow10 buildTimestamp (measurementValues ns)).
Proof.
  intros E. destruct (deliverAll_fold ns self) as (-> & _).
  rewrite E. apply fold_appendMeasurement_runs.
Qed.

Lemma appendMeasurement_again (s : list MeasurementRecord)
    (r : MeasurementRecord) :
  appendMeasurement (appendMeasurement s r) r = appendMeasurement s r.
Proof.
  assert (A : appendMeasurement (s ++ [r]) r = s ++ [r])
    by (unfold appendMeasurement; now rewrite rev_unit, Z.eqb_refl).
  unfold appendMeasurement at 2 3.
  destruct (List.rev s) as [|latest older] eqn:R; [exact A|].
  destruct (seqNum latest =? seqNum r) eqn:E; [|exact A].
  unfold appendMeasurement. now rewrite R, E.
Qed.

(** A measurement notification delivered twice in a row leaves the
    session as it is after the first delivery. *)
Theorem redelivery_changes_nothing (self : Session) (value : DataView.t) :
  deliver pow10 buildTimestamp
    (deliver pow10 buildTimestamp self (MeasurementValue value))
    (MeasurementValue value)
  = deliver pow10 buildTimestamp self (MeasurementValue value).
Proof.
  cbn [deliver]. rewrite !handleNotifications_session.
  unfold parsedRecords. cbn [List.flat_map].
  destruct (parseGlucoseMeasurement pow10 buildTimestamp value) as [parsed|e];
    cbn [List.app List.fold_left set_records records contextRecords
           dispatched written].
  - now rewrite appendMeasurement_again.
  - reflexivity.
Qed.

Lemma adjacentDistinct_snoc (l : list Z) (x : Z) :
  adjacentDistinct (l ++ [x]) =
    adjacentDistinct l
    && match List.rev l with
       | y :: _ => negb (y =? x)
       | [] => true
       end.
Proof.
  induction l as [|a l IH]; [reflexivity|].
  destruct l as [|b l].
  - cbn. now rewrite andb_true_r.
  - change (adjacentDistinct ((a :: b :: l) ++ [x]))
      with (negb (a =? b) && adjacentDistinct ((b :: l) ++ [x])).
    rewrite IH.
    change (adjacentDistinct (a :: b :: l))
      with (negb (a =? b) && adjacentDistinct (b :: l)).
    rewrite <- andb_assoc. f_equal. f_equal.
    change (List.rev (a :: b :: l)) with (List.rev (b :: l) ++ [a]).
    destruct (List.rev (b :: l)) as [|y t] eqn:R; [|reflexivity].
    apply (f_equal (@List.length Z)) in R.
    rewrite length_rev in R. discriminate R.
Qed.

Lemma appendMeasurement_adjacentDistinct (s : list MeasurementRecord)
    (r : MeasurementRecord) :
  adjacentDistinct (List.map seqNum s) = true ->
  adjacentDistinct (List.map seqNum (appendMeasurement s r)) = true.
Proof.
  intros I. unfold appendMeasurement.
  destruct (List.rev s) as [|latest older] eqn:R.
  - rewrite map_app. cbn [List.map].
    rewrite adjacentDistinct_snoc, I, <- map_rev, R. reflexivity.
  - destruct (seqNum latest =? seqNum r) eqn:E; [exact I|].
    rewrite map_app. cbn [List.map].
    rewrite adjacentDistinct_snoc, I, <- map_rev, R. cbn [List.map].
    now rewrite E.
Qed.

(** The store never holds two neighbours with one sequence number:
    notifications keep that true of a session, and a session that
    [getAllRecords] or [getDeltaRecords] has reset has it after any run of
    notifications. *)
Theorem records_adjacentDistinct (ns : list Notification) :
  (forall self : Session,
     adjacentDistinct (List.map seqNum (records self)) = true ->
     adjacentDistinct
       (List.map seqNum (records (deliverAll pow10 buildTimestamp self ns))) = true)
  /\ (forall self : Session,
        adjacentDistinct
          (List.map seqNum
             (records (deliverAll pow10 buildTimestamp (getAllRecords self) ns)))
        = true)
  /\ (forall (self : Session) (n : Z),
        adjacentDistinct
          (List.map seqNum
             (records (deliverAll pow10 buildTimestamp (getDeltaRecords self n) ns)))
        = true).
Proof.
  assert (K : forall self : Session,
             adjacentDistinct (List.map seqNum (records self)) = true ->
             adjacentDistinct
               (List.map seqNum (records (deliverAll pow10 buildTimestamp self ns)))
             = true).
  { intros self I.
    destruct (deliverAll_fold ns self) as (-> & _).
    revert I. generalize (records self).
    induction (parsedRecords pow10 buildTimestamp (measurementValues ns))
      as [|r l IH]; intros s I; [exact I|].
    cbn [List.fold_left]. apply IH.
    now apply appendMeasurement_adjacentDistinct. }
  split; [exact K|].
  split; intros; apply K; reflexivity.
Qed.

(** A retrieval from start to end: after [getAllRecords], any run of
    notifications and the response 0x06 with operand 0x0101, the session
    has dispatched one more event, a [data] event whose detail holds,
    of the measurement records that parsed, the first of every run with
    one sequence number, and every context record that parsed, both in
    arrival order; what the session held before the command is gone, and
    the one command written is 0x01 0x01. *)
Theorem retrieval_end_to_end (self : Session) (ns : list Notification)
    (b1 : byte) :
  let arrived := deliverAll pow10 buildTimestamp (getAllRecords self) ns in
  let ev :=
    NewCustomEvent "data"
      (DetailData
         (collapseRuns (parsedRecords pow10 buildTimestamp (measurementValues ns)))
         (parsedContexts ns)) in
  handleRACP arrived [x06; b1; x01; x01] = (dispatchEvent arrived ev, Ok tt)
  /\ dispatched (dispatchEvent arrived ev) = dispatched self ++ [ev]
  /\ written (dispatchEvent arrived ev) = written self ++ [[0x01; 0x01]].
Proof.
  intros arrived ev.
  destruct (deliverAll_fold ns (getAllRecords self)) as (R & C).
  destruct (deliverAll_logs ns (getAllRecords self)) as (D & W).
  fold arrived in R, C, D, W.
  cbn [getAllRecords sendCommand set_records set_contextRecords
         records contextRecords dispatched written List.app] in R, C, D, W.
  rewrite fold_appendMeasurement_runs in R.
  split; [|split].
  - change (handleRACP arrived [x06; b1; x01; x01])
      with (dispatchEvent arrived
              (NewCustomEvent "data"
                 (DetailData (records arrived) (contextRecords arrived))),
            @Ok unit tt).
    subst ev. now rewrite R, C.
  - cbn [dispatchEvent dispatched]. now rewrite D.
  - cbn [dispatchEvent written]. now rewrite W.
Qed.

(** ** The RACP handler, continued *)

(** Whatever buffer arrives, [handleRACP] leaves the records, the
    context records and the written commands alone and dispatches at
    most one event; when it throws the session is as it was, and it
    throws [RangeError] for a buffer of fewer than four bytes and
    [Error("Unrecognized op code")] for a longer one, nothing else. *)
Theorem handleRACP_outcomes (self : Session) (value : DataView.t) :
  let out := handleRACP self value in
  records (fst out) = records self
  /\ contextRecords (fst out) = contextRecords self
  /\ written (fst out) = written self
  /\ match snd out with
     | Ok _ =>
         4 <= DataView.byteLength value
         /\ (dispatched (fst out) = dispatched self
             \/ exists ev, dispatched (fst out) = dispatched self ++ [ev])
     | Throw e =>
         fst out = self
         /\ (e = RangeError /\ DataView.byteLength value < 4
             \/ e = Error "Unrecognized op code"
                /\ 4 <= DataView.byteLength value)
     end.
Proof.
  destruct value as [|b0 [|b1 [|b2 [|b3 t]]]];
    try (cbn; repeat split; left; split; [reflexivity|lia]).
  assert (L : 4 <= DataView.byteLength (b0 :: b1 :: b2 :: b3 :: t))
    by (unfold DataView.byteLength; cbn [List.length]; lia).
  revert L. generalize (DataView.byteLength (b0 :: b1 :: b2 :: b3 :: t)).
  intros len L.
  unfold handleRACP.
  change (readRacpObject (b0 :: b1 :: b2 :: b3 :: t))
    with (Ok {| opCode := DataView.unsigned b0;
                operator := DataView.unsigned b1;
                operand := DataView.unsigned b2 + 256 * DataView.unsigned b3 |}).
  cbn [opCode operand].
  destruct (DataView.unsigned b0 =? 5);
    [cbn; repeat split; [exact L|right; eexists; reflexivity]|].
  destruct (DataView.unsigned b0 =? 6).
  - destruct (DataView.unsigned b2 + 256 * DataView.unsigned b3 =? 257);
      [cbn; repeat split; [exact L|right; eexists; reflexivity]|].
    destruct (DataView.unsigned b2 + 256 * DataView.unsigned b3 =? 1537);
      [cbn; repeat split; [exact L|right; eexists; reflexivity]|].
    cbn; repeat split; [exact L|left; reflexivity].
  - cbn. repeat split. right. split; [reflexivity|exact L].
Qed.

(** [handleRACP] reads four bytes: what follows them changes nothing. *)
Theorem handleRACP_reads_four_bytes (self : Session)
    (b0 b1 b2 b3 : byte) (extra : list byte) :
  handleRACP self (b0 :: b1 :: b2 :: b3 :: extra)
  = handleRACP self [b0; b1; b2; b3].
Proof. reflexivity. Qed.

End RunProperties.

(** ** The commands with a sequence number *)

Section CommandProperties.

#[local] Arguments DataView.unsigned : simpl never.
#[local] Arguments Z.mul : simpl never.
#[local] Arguments Z.land : simpl never.
#[local] Arguments Z.shiftr : simpl never.
#[local] Arguments Z.modulo : simpl never.

(** The five bytes of a command with a filter are bytes, and a reader
    finds in them the op code, operator 0x03, filter type 0x01 and, as
    the little-endian uint16 at offset 3, the sequence number modulo
    2^16. *)
Theorem deltaCommand_read_back (opCode seqNum : Z) (buffer : list byte) :
  List.map DataView.unsigned buffer = deltaCommand opCode seqNum ->
  DataView.byteLength buffer = 5
  /\ DataView.getUint8 buffer 0 = Ok opCode
  /\ DataView.getUint8 buffer 1 = Ok 0x03
  /\ DataView.getUint8 buffer 2 = Ok 0x01
  /\ DataView.getUint16 buffer 3 true = Ok (seqNum mod 0x10000).
Proof.
  unfold deltaCommand. intros H.
  destruct buffer as [|c0 [|c1 [|c2 [|c3 [|c4 [|c5 t]]]]]]; try discriminate H.
  cbn [List.map] in H. injection H as H0 H1 H2 H3 H4.
  unfold DataView.getUint16, DataView.getUint8, DataView.byteAt, JS.index.
  simpl. rewrite H0, H1, H2, H3, H4.
  repeat split.
  f_equal.
  change 255 with (Z.ones 8). rewrite Z.land_ones, Z.shiftr_div_pow2 by lia.
  change (2 ^ 8) with 256. symmetry. rewrite Z.add_comm.
  apply Z.div_mod. lia.
Qed.

End CommandProperties.

Lemma deltaCommand_read_back_witness :
  DataView.byteLength [x01; x03; x01; x34; x12] = 5
  /\ DataView.getUint8 [x01; x03; x01; x34; x12] 0 = Ok 0x01
  /\ DataView.getUint8 [x01; x03; x01; x34; x12] 1 = Ok 0x03
  /\ DataView.getUint8 [x01; x03; x01; x34; x12] 2 = Ok 0x01
  /\ DataView.getUint16 [x01; x03; x01; x34; x12] 3 true
     = Ok (0x1234 mod 0x10000).
Proof.
  apply (deltaCommand_read_back 0x01 0x1234 [x01; x03; x01; x34; x12]).
  reflexivity.
Defined.

(** ** buf2hex *)

(** A byte is written as two digits, whose values give the byte back. *)
Lemma buf2hex_byte (b : byte) :
  exists c1 c2,
    padStart (toString16 (Byte.to_N b)) 2 "0"%char = String c1 (String c2 "")
    /\ (16 * hexValue c1 + hexValue c2 = Byte.to_N b)%N.
Proof.
  destruct b; do 2 eexists; (split; [reflexivity|reflexivity]).
Qed.

Lemma buf2hex_cons (b : byte) (buffer : list byte) :
  exists c1 c2,
    buf2hex (b :: buffer) =
      String c1 (String c2
        match buffer with
        | [] => ""
        | _ :: _ => String " " (buf2hex buffer)
        end)
    /\ (16 * hexValue c1 + hexValue c2 = Byte.to_N b)%N.
Proof.
  destruct (buf2hex_byte b) as (c1 & c2 & E & V).
  exists c1, c2. split; [|exact V].
  unfold buf2hex. cbn [List.map String.concat]. rewrite E.
  destruct buffer; reflexivity.
Qed.

(** The line [buf2hex] writes has three characters a byte less one, and
    none for an empty buffer. *)
Theorem buf2hex_length (buffer : list byte) :
  String.length (buf2hex buffer) = (3 * List.length buffer - 1)%nat.
Proof.
  induction buffer as [|b buffer IH]; [reflexivity|].
  destruct (buf2hex_cons b buffer) as (c1 & c2 & -> & _).
  destruct buffer as [|b' buffer]; [reflexivity|].
  cbn [String.length]. rewrite IH. cbn [List.length]. lia.
Qed.

(** Two buffers that [buf2hex] writes alike are the same bytes. *)
Theorem buf2hex_injective (buffer buffer' : list byte) :
  buf2hex buffer = buf2hex buffer' -> buffer = buffer'.
Proof.
  revert buffer'.
  induction buffer as [|b buffer IH]; intros [|b' buffer'] H.
  - reflexivity.
  - destruct (buf2hex_cons b' buffer') as (c1 & c2 & E & _).
    rewrite E in H. discriminate H.
  - destruct (buf2hex_cons b buffer) as (c1 & c2 & E & _).
    rewrite E in H. discriminate H.
  - destruct (buf2hex_cons b buffer) as (c1 & c2 & E & V).
    destruct (buf2hex_cons b' buffer') as (c1' & c2' & E' & V').
    rewrite E, E' in H. injection H as -> -> T.
    assert (B : b = b').
    { rewrite V' in V.
      pose proof (Byte.of_to_N b) as O. rewrite <- V in O.
      rewrite Byte.of_to_N in O. now injection O. }
    subst b'. f_equal.
    destruct buffer as [|x buffer], buffer' as [|x' buffer'];
      try discriminate T; [reflexivity|].
    apply IH. now injection T.
Qed.

Lemma buf2hex_injective_witness :
  [x00; x0a; xff] = [x00; x0a; xff].
Proof.
  apply (buf2hex_injective [x00; x0a; xff] [x00; x0a; xff]). reflexivity.
Defined.

(** ** getDeviceInfo *)

Section DeviceInformationProperties.

Import DeviceInformation.

Variable getCharacteristic : string -> string.
Variable decode : list byte -> string.

Local Abbreviation isManufacturer := (isManufacturer getCharacteristic).
Local Abbreviation isModel := (isModel getCharacteristic).
Local Abbreviation isRead := (isRead getCharacteristic).
Local Abbreviation readCharacteristics :=
  (readCharacteristics getCharacteristic decode).
Local Abbreviation getDeviceInfo := (getDeviceInfo getCharacteristic decode).

Lemma readCharacteristics_filter (characteristics : list Characteristic) :
  forall info,
    readCharacteristics characteristics info
    = readCharacteristics (List.filter isRead characteristics) info.
Proof.
  induction characteristics as [|c cs IH]; intros info; [reflexivity|].
  cbn [List.filter]. unfold DeviceInformation.isRead,
    DeviceInformation.isModel, DeviceInformation.isManufacturer.
  cbn [DeviceInformation.readCharacteristics].
  destruct (uuid c =? getCharacteristic "manufacturer_name_string")%string
    eqn:M; cbn [orb negb andb].
  - cbn [DeviceInformation.readCharacteristics]. rewrite M.
    destruct (readValue c); [apply IH|reflexivity].
  - destruct (uuid c =? getCharacteristic "model_number_string")%string
      eqn:N.
    + cbn [DeviceInformation.readCharacteristics]. rewrite M, N.
      destruct (readValue c); [apply IH|reflexivity].
    + apply IH.
Qed.

(** Characteristics with another uuid are never read: with or without
    them, readable or not, [getDeviceInfo] ends the same. *)
Theorem getDeviceInfo_skips_others (characteristics : list Characteristic) :
  getDeviceInfo characteristics
  = getDeviceInfo (List.filter isRead characteristics).
Proof.
  unfold DeviceInformation.getDeviceInfo.
  now rewrite readCharacteristics_filter.
Qed.

Lemma find_snoc {A : Type} (test : A -> bool) (l : list A) (x : A) :
  List.find test (l ++ [x]) =
    match List.find test l with
    | Some y => Some y
    | None => if test x then Some x else None
    end.
Proof.
  induction l as [|a l IH]; [reflexivity|].
  cbn [List.app List.find]. destruct (test a); [reflexivity|exact IH].
Qed.

Lemma lastValue_cons (test : Characteristic -> bool) (c : Characteristic)
    (cs : list Characteristic) :
  lastValue test (c :: cs) =
    match lastValue test cs with
    | Some v => Some v
    | None => if test c then Some (readValue c) else None
    end.
Proof.
  unfold lastValue. cbn [List.rev]. rewrite find_snoc.
  destruct (List.find test (List.rev cs)); [reflexivity|].
  destruct (test c); reflexivity.
Qed.

Lemma lastValue_resolved (test : Characteristic -> bool)
    (characteristics : list Characteristic) (e : exn) :
  (forall c, test c = true -> isRead c = true) ->
  List.Forall (fun c => isRead c = true -> JS.isOk (readValue c) = true)
    characteristics ->
  lastValue test characteristics <> Some (Throw e).
Proof.
  intros T H L. unfold lastValue in L.
  destruct (List.find test (List.rev characteristics)) as [c|] eqn:F;
    [|discriminate L].
  apply find_some in F. destruct F as [I Tc].
  apply in_rev in I. rewrite Forall_forall in H.
  specialize (H c I (T c Tc)). cbn [option_map] in L.
  injection L as L. rewrite L in H. discriminate H.
Qed.

Lemma isManufacturer_isRead (c : Characteristic) :
  isManufacturer c = true -> isRead c = true.
Proof. unfold DeviceInformation.isRead. now intros ->. Qed.

Lemma isModel_isRead (c : Characteristic) :
  isModel c = true -> isRead c = true.
Proof. unfold DeviceInformation.isRead. intros ->. apply orb_true_r. Qed.

Ltac last_cases H :=
  match goal with
  | |- context [lastValue ?test ?cs] =>
      let L := fresh "L" in
      destruct (lastValue test cs) as [[?|?]|] eqn:L;
      [reflexivity
      |exfalso;
       first [ exact (lastValue_resolved _ _ _ isManufacturer_isRead H L)
             | exact (lastValue_resolved _ _ _ isModel_isRead H L) ]
      |reflexivity]
  end.

(** What the loop leaves, when every read it makes resolves. *)
Lemma readCharacteristics_resolved (characteristics : list Characteristic) :
  List.Forall (fun c => isRead c = true -> JS.isOk (readValue c) = true)
    characteristics ->
  forall info,
  exists info',
    readCharacteristics characteristics info = (info', Ok tt)
    /\ manufacturers info' =
         match lastValue isManufacturer characteristics with
         | Some (Ok v) => Some [decode v]
         | _ => manufacturers info
         end
    /\ model info' =
         match lastValue isModel characteristics with
         | Some (Ok v) => Some (decode v)
         | _ => model info
         end.
Proof.
  induction 1 as [|c cs Hc Hcs IH]; intros info.
  - exists info. now repeat split.
  - rewrite !lastValue_cons.
    cbn [DeviceInformation.readCharacteristics].
    assert (TM : isManufacturer c
                 = (uuid c =? getCharacteristic "manufacturer_name_string")%string)
      by reflexivity.
    assert (TN : isModel c
                 = negb (uuid c =? getCharacteristic "manufacturer_name_string")%string
                   && (uuid c =? getCharacteristic "model_number_string")%string)
      by reflexivity.
    assert (TR : isRead c = isManufacturer c || isModel c) by reflexivity.
    rewrite TM, TN in TR. rewrite TM, TN. clear TM TN. rewrite TR in Hc.
    clear TR.
    destruct (uuid c =? getCharacteristic "manufacturer_name_string")%string;
      cbn [orb negb andb] in Hc |- *.
    + destruct (readValue c) as [v|e]; [|discriminate (Hc eq_refl)].
      destruct (IH {| manufacturers := Some [decode v];
                      model := model info |}) as (info' & R & Ma & Mo).
      exists info'. split; [exact R|]. rewrite Ma, Mo.
      cbn [manufacturers model].
      split; last_cases Hcs.
    + destruct (uuid c =? getCharacteristic "model_number_string")%string.
      * destruct (readValue c) as [v|e]; [|discriminate (Hc eq_refl)].
        destruct (IH {| manufacturers := manufacturers info;
                        model := Some (decode v) |}) as (info' & R & Ma & Mo).
        exists info'. split; [exact R|]. rewrite Ma, Mo.
        cbn [manufacturers model]. split; last_cases Hcs.
      * destruct (IH info) as (info' & R & Ma & Mo).
        exists info'. split; [exact R|]. rewrite Ma, Mo.
        split; last_cases Hcs.
Qed.

(** When every read of a manufacturer or model characteristic resolves,
    [getDeviceInfo] returns [self.deviceInfo], in which [manufacturers]
    is the one decoded value of the last manufacturer characteristic and
    [model] the decoded value of the last model characteristic, each
    absent when there is no such characteristic. *)
Theorem getDeviceInfo_last_wins (characteristics : list Characteristic) :
  List.Forall (fun c => isRead c = true -> JS.isOk (readValue c) = true)
    characteristics ->
  exists info,
    getDeviceInfo characteristics = (info, Ok info)
    /\ manufacturers info =
         match lastValue isManufacturer characteristics with
         | Some (Ok v) => Some [decode v]
         | _ => None
         end
    /\ model info =
         match lastValue isModel characteristics with
         | Some (Ok v) => Some (decode v)
         | _ => None
         end.
Proof.
  intros H. unfold DeviceInformation.getDeviceInfo.
  destruct (readCharacteristics_resolved characteristics H
              {| manufacturers := None; model := None |})
    as (info & R & Ma & Mo).
  exists info. rewrite R. now repeat split.
Qed.

Lemma readCharacteristics_app (pre post : list Characteristic) :
  forall info,
    readCharacteristics (pre ++ post) info =
      match readCharacteristics pre info with
      | (info', Ok _) => readCharacteristics post info'
      | (info', Throw e) => (info', Throw e)
      end.
Proof.
  induction pre as [|c pre IH]; intros info; [reflexivity|].
  cbn [List.app DeviceInformation.readCharacteristics].
  destruct (uuid c =? getCharacteristic "manufacturer_name_string")%string.
  - destruct (readValue c); [apply IH|reflexivity].
  - destruct (uuid c =? getCharacteristic "model_number_string")%string.
    + destruct (readValue c); [apply IH|reflexivity].
    + apply IH.
Qed.

(** The first read that is rejected ends [getDeviceInfo]: it throws what
    the read was rejected with, reads nothing after it, and leaves in
    [self.deviceInfo] what the characteristics before it gave. *)
Theorem getDeviceInfo_first_rejection (pre post : list Characteristic)
    (c : Characteristic) (e : exn) :
  List.Forall (fun c => isRead c = true -> JS.isOk (readValue c) = true) pre ->
  isRead c = true -> readValue c = Throw e ->
  getDeviceInfo (pre ++ c :: post) = (fst (getDeviceInfo pre), Throw e).
Proof.
  intros Hpre Hc He. unfold DeviceInformation.getDeviceInfo.
  rewrite readCharacteristics_app.
  destruct (readCharacteristics_resolved pre Hpre
              {| manufacturers := None; model := None |})
    as (info & R & _). rewrite R. cbn [fst].
  cbn [DeviceInformation.readCharacteristics].
  unfold DeviceInformation.isRead, DeviceInformation.isModel,
    DeviceInformation.isManufacturer in Hc.
  destruct (uuid c =? getCharacteristic "manufacturer_name_string")%string;
    cbn [orb negb andb] in Hc.
  - now rewrite He.
  - rewrite Hc. now rewrite He.
Qed.

End DeviceInformationProperties.

Lemma getDeviceInfo_last_wins_witness :
  exists info,
    DeviceInformation.getDeviceInfo DeviceInformation.sampleUuid
      DeviceInformation.sampleDecode DeviceInformation.sampleCharacteristics
    = (info, Ok info)
    /\ DeviceInformation.manufacturers info = Some ["iS"]
    /\ DeviceInformation.model info = Some "B".
Proof.
  apply (getDeviceInfo_last_wins DeviceInformation.sampleUuid
           DeviceInformation.sampleDecode
           DeviceInformation.sampleCharacteristics).
  repeat constructor; cbn; intros; congruence.
Defined.

Lemma getDeviceInfo_first_rejection_witness :
  DeviceInformation.getDeviceInfo DeviceInformation.sampleUuid
    DeviceInformation.sampleDecode
    (DeviceInformation.sampleCharacteristics
     ++ DeviceInformation.rejectedCharacteristic
        :: DeviceInformation.sampleCharacteristics)
  = ({| DeviceInformation.manufacturers := Some ["iS"];
        DeviceInformation.model := Some "B" |},
     Throw (Error "NetworkError")).
Proof.
  apply (getDeviceInfo_first_rejection DeviceInformation.sampleUuid
           DeviceInformation.sampleDecode
           DeviceInformation.sampleCharacteristics
           DeviceInformation.sampleCharacteristics
           DeviceInformation.rejectedCharacteristic
           (Error "NetworkError")).
  - repeat constructor; cbn; intros; congruence.
  - reflexivity.
  - reflexivity.
Defined.

(** ** disconnect *)

Section DisconnectProperties.

Import Disconnect.

(** The calls [disconnect] makes. *)
Lemma disconnect_calls (stops : Slot -> bool) (c : Client)
    (connected : bool) :
  device c = Some connected ->
  snd (disconnect stops c)
  = stopCalls (held c) ++ (if connected then [GattDisconnect] else []).
Proof.
  destruct c as [d gm gc rc]. cbn [device]. intros ->.
  unfold disconnect, stopBlock, stopCalls, slots; cbn [device held].
  destruct gm, gc, rc, connected;
    destruct (stops GlucoseMeasurement), (stops GlucoseMeasurementContext),
             (stops Racp);
    reflexivity.
Qed.

(** The instance [disconnect] leaves. *)
Lemma disconnect_client (stops : Slot -> bool) (c : Client)
    (connected : bool) :
  device c = Some connected ->
  (forall slot,
     held (fst (disconnect stops c)) slot = held c slot && negb (stops slot))
  /\ device (fst (disconnect stops c)) = Some false.
Proof.
  destruct c as [d gm gc rc]. cbn [device]. intros ->.
  unfold disconnect, stopBlock; cbn [device held].
  destruct gm, gc, rc, connected;
    destruct (stops GlucoseMeasurement) eqn:S1,
             (stops GlucoseMeasurementContext) eqn:S2,
             (stops Racp) eqn:S3;
    cbn;
    (split; [intros [| |]; rewrite ?S1, ?S2, ?S3; reflexivity|reflexivity]).
Qed.

(** Whatever the instance holds and whichever [stopNotifications()] are
    rejected, [disconnect] asks every characteristic it holds to stop, in
    the order of its blocks, lets go of those that stopped and keeps the
    others, and then calls [device.gatt.disconnect()] exactly when the
    device is connected; without a device it does nothing. *)
Theorem disconnect_best_effort (stops : Slot -> bool) (c : Client) :
  let out := disconnect stops c in
  match device c with
  | None => out = (c, [])
  | Some connected =>
      snd out
      = stopCalls (held c) ++ (if connected then [GattDisconnect] else [])
      /\ (forall slot, held (fst out) slot = held c slot && negb (stops slot))
      /\ device (fst out) = Some false
  end.
Proof.
  cbv zeta.
  destruct (device c) as [connected|] eqn:D.
  - split.
    + now apply disconnect_calls.
    + now apply (disconnect_client stops c connected).
  - unfold disconnect. now rewrite D.
Qed.

(** A second [disconnect] never calls [device.gatt.disconnect()]; it asks
    again only the characteristics that did not stop the first time, and
    so asks nothing at all when they all stopped. *)
Theorem disconnect_again (stops stops' : Slot -> bool) (c : Client) :
  let second := disconnect stops' (fst (disconnect stops c)) in
  match device c with
  | None => second = (c, [])
  | Some _ =>
      snd second
      = stopCalls (fun slot => held c slot && negb (stops slot))
      /\ ~ In GattDisconnect (snd second)
      /\ ((forall slot, held c slot = true -> stops slot = true) ->
          snd second = [])
      /\ device (fst second) = Some false
  end.
Proof.
  cbv zeta.
  destruct (device c) as [connected|] eqn:D.
  - destruct (disconnect_client stops c connected D) as (H & D').
    pose proof (disconnect_calls stops' _ false D') as Calls.
    destruct (disconnect_client stops' _ false D') as (_ & D'').
    rewrite app_nil_r in Calls.
    assert (E : stopCalls (held (fst (disconnect stops c)))
                = stopCalls (fun slot => held c slot && negb (stops slot)))
      by (unfold stopCalls, slots; cbn [List.flat_map]; now rewrite !H).
    rewrite E in Calls. clear E.
    split; [exact Calls|]. split; [|split; [|exact D'']].
    + rewrite Calls. unfold stopCalls, slots. cbn [List.flat_map].
      repeat match goal with
        | |- context [if ?b then _ else _] => destruct b
        end; cbn; intuition discriminate.
    + intros A. rewrite Calls. unfold stopCalls, slots. cbn [List.flat_map].
      repeat match goal with
        | |- context [held c ?slot && negb (stops ?slot)] =>
            let Hs := fresh in
            destruct (held c slot) eqn:Hs;
            [rewrite (A slot Hs)|]; cbn [andb negb]
        end;
        reflexivity.
  - unfold disconnect at 2. rewrite D. cbn [fst].
    unfold disconnect. now rewrite D.
Qed.

End DisconnectProperties.

(** ** The further properties on the samples *)

Lemma parseGlucoseMeasurement_ignores_trailing_bytes_witness :
  parseGlucoseMeasurement samplePow10 sampleTimestamp (glucoseMeasurement ++ [xff; x00])
  = Ok glucoseRecord.
Proof.
  apply (parseGlucoseMeasurement_ignores_trailing_bytes samplePow10 sampleTimestamp
           glucoseMeasurement [xff; x00] glucoseRecord).
  reflexivity.
Defined.

Lemma parseGlucoseMeasurement_presence_witness :
  DataView.byteAt glucoseMeasurement 0 = Some (flags glucoseRecord)
  /\ units glucoseRecord = Some "mg/dL"
  /\ (value glucoseRecord = None <-> true = false)
  /\ (type glucoseRecord = None <-> true = false)
  /\ (location glucoseRecord = None <-> true = false)
  /\ (status glucoseRecord = None <-> false = false)
  /\ (payload glucoseRecord = None <-> false = false)
  /\ hasContext glucoseRecord = false.
Proof.
  apply (parseGlucoseMeasurement_presence samplePow10 sampleTimestamp
           glucoseMeasurement glucoseRecord).
  reflexivity.
Defined.

Lemma parseGlucoseMeasurement_ranges_witness :
  0 <= flags offsetRecord < 0x100
  /\ 0 <= seqNum offsetRecord < 0x10000
  /\ (forall t, type offsetRecord = Some t -> 0 <= t < 16)
  /\ (forall s, status offsetRecord = Some s -> 0 <= s < 0x10000)
  /\ (forall p, payload offsetRecord = Some p ->
        -0x8000 <= timeOffset p < 0x8000).
Proof.
  apply (parseGlucoseMeasurement_ranges samplePow10 sampleTimestamp
           offsetMeasurement offsetRecord).
  reflexivity.
Defined.

Lemma parseMeasurementContext_ignores_trailing_bytes_witness :
  parseMeasurementContext (carbsMealContext ++ [xff]) = Ok carbsMealRecord.
Proof.
  apply (parseMeasurementContext_ignores_trailing_bytes
           carbsMealContext [xff] carbsMealRecord).
  reflexivity.
Defined.

Lemma parseMeasurementContext_fields_witness :
  DataView.byteAt carbsMealContext 0 = Some 0x03
  /\ ContextRecord.extended carbsMealRecord = None
  /\ ContextRecord.carbID carbsMealRecord = DataView.byteAt carbsMealContext 3
  /\ (ContextRecord.carbUnits carbsMealRecord = None <-> true = false)
  /\ (ContextRecord.meal carbsMealRecord = None <-> true = false)
  /\ (true = false ->
      ContextRecord.meal carbsMealRecord = DataView.byteAt carbsMealContext 6).
Proof.
  apply (parseMeasurementContext_fields carbsMealContext carbsMealRecord).
  reflexivity.
Defined.

Lemma records_adjacentDistinct_witness :
  adjacentDistinct
    (List.map seqNum
       (records
          (deliverAll samplePow10 sampleTimestamp sessionWithOneRecord
             [MeasurementValue (plainMeasurement x01);
              MeasurementValue (plainMeasurement x02);
              MeasurementValue (plainMeasurement x02)])))
  = true.
Proof.
  apply (proj1 (records_adjacentDistinct samplePow10 sampleTimestamp
                  [MeasurementValue (plainMeasurement x01);
                   MeasurementValue (plainMeasurement x02);
                   MeasurementValue (plainMeasurement x02)])
           sessionWithOneRecord).
  reflexivity.
Defined.

Lemma disconnect_again_witness :
  snd (Disconnect.disconnect (fun _ => true)
         (fst (Disconnect.disconnect (fun _ => true) Disconnect.sampleClient)))
  = [].
Proof.
  apply (proj1 (proj2 (proj2 (disconnect_again (fun _ => true) (fun _ => true)
                                Disconnect.sampleClient)))).
  reflexivity.
Defined.

Lemma parseGlucoseMeasurement_layout_witness :
  exists raw b n,
    DataView.getUint16 glucoseMeasurement 1 true = Ok (seqNum glucoseRecord)
    /\ DataView.getUint16 glucoseMeasurement (10 + 0) true = Ok raw
    /\ getSFLOAT samplePow10 raw "mg/dL" = Ok n
    /\ value glucoseRecord = Some n
    /\ DataView.getUint8 glucoseMeasurement (12 + 0) = Ok b
    /\ type glucoseRecord = Some (b / 16)
    /\ (false = true ->
        exists s,
          DataView.getUint16 glucoseMeasurement (13 + 0) true = Ok s
          /\ status glucoseRecord = Some s).
Proof.
  apply (parseGlucoseMeasurement_layout samplePow10 sampleTimestamp
           glucoseMeasurement glucoseRecord).
  - reflexivity.
  - reflexivity.
Defined.

Lemma records_first_of_each_run_witness :
  List.map seqNum
    (records
       (deliverAll samplePow10 sampleTimestamp newSession
          [MeasurementValue (plainMeasurement x01);
           ContextValue carbsMealContext;
           MeasurementValue (plainMeasurement x01);
           MeasurementValue (plainMeasurement x02)]))
  = [1; 2].
Proof.
  rewrite (records_first_of_each_run samplePow10 sampleTimestamp newSession
             [MeasurementValue (plainMeasurement x01);
              ContextValue carbsMealContext;
              MeasurementValue (plainMeasurement x01);
              MeasurementValue (plainMeasurement x02)]).
  - reflexivity.
  - reflexivity.
Defined.
